(** * Commerce-Flow: the order saga orchestrator and the cart reducer

    Two pieces of the repository are embedded here.

    - [OrderSaga.processOrder] (the saga orchestrator of the architecture
      notes, src/load-test-scenarios.js lines 1113-1154): a four step
      pipeline run through a [SagaTransaction], with a single [try]/[catch]
      around all four steps.
    - [appReducer] (src/AppContext.tsx lines 35-116): the reducer of the
      storefront state, in particular its ADD_TO_CART case.

    Around them: the action creators and the components that dispatch
    to the reducer (src/Cart.tsx, src/Header.tsx, the product card), the
    k6 script at the head of src/load-test-scenarios.js, and the payment
    service and the traced order service of the same file.

    Collaborator calls are the only side effects of the orchestrator, so a
    run is modelled as a computation over the chronological list of calls
    made so far; what a collaborator answers is a function of that history
    and of the call.  JavaScript exceptions are a second kind of completion
    that keeps the history (a [throw] does not undo the calls made before
    it). *)

From Stdlib Require Import String List ZArith Lia Bool Arith.
From Stdlib Require Import DecimalString.
Import ListNotations.
Open Scope string_scope.
Open Scope list_scope.

(** ** Completions and the state-and-exception monad *)

Module Js.

(** A value thrown by JavaScript code.  Collaborators throw [Error]s; the
    compound error is raised by the rollback of a saga (see
    [Saga.rollback]). *)
#[warnings="-register-all"]
Inductive JsError : Type :=
| Error (message : string)
| CompensationError (original : option JsError) (detail : JsError).

(** How an awaited computation ends. *)
Inductive Completion (A : Type) : Type :=
| Normal (value : A)
| Throw (thrown : JsError).
Arguments Normal {A} value.
Arguments Throw {A} thrown.

(** A computation over a store [S]: it ends normally or abruptly, and the
    store survives both. *)
Definition Eff (S A : Type) : Type := S -> Completion A * S.

Definition ret {S A} (a : A) : Eff S A := fun s => (Normal a, s).

Definition throw {S A} (e : JsError) : Eff S A := fun s => (Throw e, s).

Definition bind {S A B} (m : Eff S A) (k : A -> Eff S B) : Eff S B :=
  fun s =>
    match m s with
    | (Normal a, s') => k a s'
    | (Throw e, s') => (Throw e, s')
    end.

(** [try { body } catch (e) { handler e }] *)
Definition try_catch {S A} (body : Eff S A) (handler : JsError -> Eff S A)
  : Eff S A :=
  fun s =>
    match body s with
    | (Normal a, s') => (Normal a, s')
    | (Throw e, s') => handler e s'
    end.

Definition get {S} : Eff S S := fun s => (Normal s, s).
Definition modify {S} (f : S -> S) : Eff S unit := fun s => (Normal tt, f s).

End Js.
Import Js.

Declare Scope eff_scope.
Delimit Scope eff_scope with eff.
Notation "x <- m ;; k" := (bind m (fun x => k))
  (at level 61, m at next level, right associativity) : eff_scope.
Notation "m ;; k" := (bind m (fun _ => k))
  (at level 61, right associativity) : eff_scope.
Open Scope eff_scope.

(** ** The order saga *)

Module Saga.

Definition Id := string.

(** Modelled from the spec: the declaration of [CreateOrderRequest] is
    missing from the sources; the fields are those of the OrderRequest of
    the data model (user, line items, shipping address, payment
    instruction).  [processOrder] reads only [items] and [payment] and
    spreads the rest into the order record.  Money is counted in minor
    units. *)
Record LineItem := {
  productId : Id;
  quantity : Z;
  unitPrice : Z
}.

Record PaymentInstruction := {
  method : Id;
  amount : Z;
  currency : string
}.

Record CreateOrderRequest := {
  userId : Id;
  items : list LineItem;
  shippingAddress : string;
  payment : PaymentInstruction
}.

(** What the collaborators hand back; the orchestrator reads the [id] of
    each and nothing else. *)
Module Reservation.
Record t := { id : Id }.
End Reservation.

Module Payment.
Record t := { id : Id }.
End Payment.

Module Order.
Record t := { id : Id }.
End Order.

(** The argument of [orderRepository.create]:
    [{...orderRequest, inventoryReservationId, paymentId}]. *)
Record OrderFields := {
  request : CreateOrderRequest;
  inventoryReservationId : Id;
  paymentId : Id
}.

(** [OrderResult]: [{ success: true, order }] or [{ success: false, error }]. *)
Record OrderResult := {
  success : bool;
  order : option Order.t;
  error : option JsError
}.

(** The collaborator methods [processOrder] names, with their arguments. *)
Inductive Call : Type :=
| InventoryReserve (requested : list LineItem)
| InventoryCancelReservation (reservationId : Id)
| PaymentCharge (instruction : PaymentInstruction)
| PaymentRefund (paymentId : Id)
| OrderCreate (fields : OrderFields)
| OrderCancel (orderId : Id)
| NotificationSendOrderConfirmation (confirmed : Order.t).

Definition answer (c : Call) : Type :=
  match c with
  | InventoryReserve _ => Reservation.t
  | PaymentCharge _ => Payment.t
  | OrderCreate _ => Order.t
  | InventoryCancelReservation _
  | PaymentRefund _
  | OrderCancel _
  | NotificationSendOrderConfirmation _ => unit
  end.

Definition History := list Call.

(** The services behind [this.inventoryService], [this.paymentService],
    [this.orderRepository] and [this.notificationService]: any answer, as
    a function of the calls made before and of the call itself. *)
Definition World := History -> forall c : Call, Completion (answer c).

(** An awaited collaborator computation: it only touches the history. *)
Definition Collab (A : Type) : Type := Eff History A.

Definition invoke (w : World) (c : Call) : Collab (answer c) :=
  fun h => (w h c, h ++ [c]).

(** *** SagaTransaction *)

Inductive SagaStatus := InProgress | Committed | RolledBack | RollbackFailed.

(** Modelled from the spec: the class [SagaTransaction] ([execute],
    [commit], [rollback]) is used by [processOrder] and is not in the
    sources.  It is the SagaRun of the data model: the compensations of
    the steps that succeeded (newest first), the overall status, and the
    error that triggered the rollback. *)
Record SagaTransaction := {
  compensations : list (Collab unit);
  status : SagaStatus;
  failure : option JsError
}.

Definition newSagaTransaction : SagaTransaction :=
  {| compensations := []; status := InProgress; failure := None |}.

Definition SagaM (A : Type) : Type := Eff (History * SagaTransaction) A.

Definition await {A} (c : Collab A) : SagaM A :=
  fun '(h, saga) => let (r, h') := c h in (r, (h', saga)).

Definition this_saga : SagaM SagaTransaction :=
  st <- get ;; ret (snd st).

Definition update_saga (f : SagaTransaction -> SagaTransaction) : SagaM unit :=
  modify (fun '(h, saga) => (h, f saga)).

Definition push_compensation (undo : Collab unit) (saga : SagaTransaction) :=
  {| compensations := undo :: compensations saga;
     status := status saga;
     failure := failure saga |}.

Definition set_compensations (cs : list (Collab unit)) (saga : SagaTransaction) :=
  {| compensations := cs; status := status saga; failure := failure saga |}.

Definition set_status (s : SagaStatus) (saga : SagaTransaction) :=
  {| compensations := compensations saga; status := s; failure := failure saga |}.

Definition set_failure (e : JsError) (saga : SagaTransaction) :=
  {| compensations := compensations saga;
     status := status saga;
     failure := Some e |}.

(** Modelled from the spec: [saga.execute(action, compensation)], missing
    from the sources.  The forward action runs; when it succeeds its
    compensating action, bound to the result, is recorded ("invoked only
    if this step succeeded and a later step fails"); when it fails the
    error is remembered as the triggering error and propagates to the
    caller ("never invoked for a step that never succeeded"). *)
Definition execute {A} (action : Collab A) (compensation : A -> Collab unit)
  : SagaM A :=
  try_catch
    (result <- await action ;;
     update_saga (push_compensation (compensation result)) ;;
     ret result)
    (fun e => update_saga (set_failure e) ;; throw e).

(** Modelled from the spec: [saga.commit()], missing from the sources.
    "A SagaRun commits only if every step in its sequence reached
    succeeded": it marks the run committed and calls no collaborator. *)
Definition commit : SagaM unit := update_saga (set_status Committed).

(** Modelled from the spec: [saga.rollback()], missing from the sources.
    "Every previously succeeded step - in strict reverse order - has its
    compensating action invoked before the run is marked rolled-back";
    "a step's compensating action is never invoked more than once"; when
    a compensating action itself fails the run is marked rollback-failed,
    an error carrying the triggering error and the compensation failure
    is raised, and the remaining compensations are not attempted. *)
Fixpoint compensate (pending : list (Collab unit)) : SagaM unit :=
  match pending with
  | [] => update_saga (set_status RolledBack)
  | undo :: earlier =>
      update_saga (set_compensations earlier) ;;
      try_catch (await undo)
        (fun detail =>
           saga <- this_saga ;;
           update_saga (set_status RollbackFailed) ;;
           throw (CompensationError (failure saga) detail)) ;;
      compensate earlier
  end.

Definition rollback : SagaM unit :=
  saga <- this_saga ;; compensate (compensations saga).

(** *** OrderSaga.processOrder *)

Section OrderSaga.

Variable w : World.

(** [this.inventoryService], [this.paymentService], [this.orderRepository],
    [this.notificationService]. *)
Definition inventoryService_reserve (requested : list LineItem) :=
  invoke w (InventoryReserve requested).
Definition inventoryService_cancelReservation (reservationId : Id) :=
  invoke w (InventoryCancelReservation reservationId).
Definition paymentService_charge (instruction : PaymentInstruction) :=
  invoke w (PaymentCharge instruction).
Definition paymentService_refund (paymentId : Id) :=
  invoke w (PaymentRefund paymentId).
Definition orderRepository_create (fields : OrderFields) :=
  invoke w (OrderCreate fields).
Definition orderRepository_cancel (orderId : Id) :=
  invoke w (OrderCancel orderId).
Definition notificationService_sendOrderConfirmation (confirmed : Order.t) :=
  invoke w (NotificationSendOrderConfirmation confirmed).

(** The body of [processOrder] after [const saga = new SagaTransaction()]. *)
Definition processOrder_body (orderRequest : CreateOrderRequest)
  : SagaM OrderResult :=
  try_catch
    ((* Step 1: Reserve inventory *)
     inventoryReservation <-
       execute
         (inventoryService_reserve (items orderRequest))
         (fun reservation =>
            inventoryService_cancelReservation (Reservation.id reservation)) ;;
     (* Step 2: Process payment *)
     payment <-
       execute
         (paymentService_charge (payment orderRequest))
         (fun payment => paymentService_refund (Payment.id payment)) ;;
     (* Step 3: Create order *)
     order <-
       execute
         (orderRepository_create
            {| request := orderRequest;
               inventoryReservationId := Reservation.id inventoryReservation;
               paymentId := Payment.id payment |})
         (fun order => orderRepository_cancel (Order.id order)) ;;
     (* Step 4: Send confirmation *)
     execute
       (notificationService_sendOrderConfirmation order)
       (fun _ => ret tt) ;;
     commit ;;
     ret {| success := true; order := Some order; error := None |})
    (fun error =>
       rollback ;;
       ret {| success := false; order := None; error := Some error |}).

(** One call of [processOrder]: a fresh saga, no collaborator call made
    yet.  The final saga is returned next to the history so that its
    status can be observed. *)
Definition processOrder (orderRequest : CreateOrderRequest)
  : Completion OrderResult * (History * SagaTransaction) :=
  processOrder_body orderRequest ([], newSagaTransaction).

End OrderSaga.

Definition outcome (run : Completion OrderResult * (History * SagaTransaction)) :=
  fst run.
Definition calls (run : Completion OrderResult * (History * SagaTransaction)) :=
  fst (snd run).
Definition final_status (run : Completion OrderResult * (History * SagaTransaction)) :=
  status (snd (snd run)).

(** *** Observing a run *)

Definition is_release (c : Call) : bool :=
  match c with InventoryCancelReservation _ => true | _ => false end.
Definition is_charge (c : Call) : bool :=
  match c with PaymentCharge _ => true | _ => false end.
Definition is_refund (c : Call) : bool :=
  match c with PaymentRefund _ => true | _ => false end.
Definition is_create (c : Call) : bool :=
  match c with OrderCreate _ => true | _ => false end.
Definition is_order_cancel (c : Call) : bool :=
  match c with OrderCancel _ => true | _ => false end.
Definition is_send (c : Call) : bool :=
  match c with NotificationSendOrderConfirmation _ => true | _ => false end.

(** The compensating calls: release, refund, cancellation of the order. *)
Definition is_compensation (c : Call) : bool :=
  is_release c || is_refund c || is_order_cancel c.

(** Every call on the Order Store. *)
Definition is_order_store (c : Call) : bool :=
  is_create c || is_order_cancel c.

Definition count (p : Call -> bool) (h : History) : nat :=
  length (filter p h).

Definition failed (e : JsError) : OrderResult :=
  {| success := false; order := None; error := Some e |}.

Definition succeeded (o : Order.t) : OrderResult :=
  {| success := true; order := Some o; error := None |}.

(** The order record written in step 3 of a run. *)
Definition order_fields (orderRequest : CreateOrderRequest)
  (r : Reservation.t) (p : Payment.t) : OrderFields :=
  {| request := orderRequest;
     inventoryReservationId := Reservation.id r;
     paymentId := Payment.id p |}.

(** *** Proof steps *)

Ltac saga_unfold :=
  repeat
    (progress
       (unfold outcome, calls, final_status, processOrder, processOrder_body,
          rollback, commit, execute, this_saga, update_saga, await,
          inventoryService_reserve, inventoryService_cancelReservation,
          paymentService_charge, paymentService_refund,
          orderRepository_create, orderRepository_cancel,
          notificationService_sendOrderConfirmation,
          invoke, try_catch, bind, get, modify, ret, throw, order_fields in *;
        cbn in *)).

(** Replace the answer of a collaborator by the one a hypothesis gives. *)
Ltac answer_known :=
  match goal with
  | H : ?w ?h ?c = _ |- context [?w ?h ?c] => rewrite H; saga_unfold
  end.

(** Split on the next answer of the services [w] that the run waits for. *)
Ltac answer_cases w :=
  match goal with
  | |- context [w ?h ?c] =>
      let E := fresh "Answer" in destruct (w h c) eqn:E; saga_unfold
  end.

(** Positions of a history of at most seven calls. *)
Ltac position n :=
  destruct n as [|[|[|[|[|[|[|n]]]]]]]; cbn in *;
  try (destruct n; cbn in *); try discriminate.

(** The call found at a position, and what the services answered to it. *)
Ltac located :=
  repeat match goal with
    | H : Some _ = Some _ |- _ => inversion H; clear H; subst
    | H : is_compensation _ = true |- _ => cbn in H; try discriminate H; clear H
    | H1 : ?w ?h ?c = Normal _, H2 : ?w ?h ?c = Throw _ |- _ =>
        rewrite H1 in H2; discriminate H2
    | H1 : ?w ?h ?c = Throw ?e, H2 : ?w ?h ?c = Throw ?d |- _ =>
        rewrite H1 in H2; inversion H2; clear H2; subst
    end.

(** *** The rollback, observed *)

(** The history after the compensations [pending] have all run, newest
    first. *)
Definition undone (pending : list (Collab unit)) (h : History) : History :=
  fold_left (fun h undo => snd (undo h)) pending h.

Definition all_undone (pending : list (Collab unit)) (h : History) : Prop :=
  forall before undo after,
    pending = before ++ undo :: after ->
    fst (undo (undone before h)) = Normal tt.

(** *** Scripted services

    Services whose answers do not depend on the history: one answer per
    method.  They are the concrete runs of the scenarios. *)

Record Script := {
  on_reserve : Completion Reservation.t;
  on_cancelReservation : Completion unit;
  on_charge : Completion Payment.t;
  on_refund : Completion unit;
  on_create : Completion Order.t;
  on_cancel : Completion unit;
  on_sendOrderConfirmation : Completion unit
}.

Definition scripted (s : Script) : World :=
  fun _ c =>
    match c return Completion (answer c) with
    | InventoryReserve _ => on_reserve s
    | InventoryCancelReservation _ => on_cancelReservation s
    | PaymentCharge _ => on_charge s
    | PaymentRefund _ => on_refund s
    | OrderCreate _ => on_create s
    | OrderCancel _ => on_cancel s
    | NotificationSendOrderConfirmation _ => on_sendOrderConfirmation s
    end.

Definition res1 : Reservation.t := {| Reservation.id := "res-1" |}.
Definition res2 : Reservation.t := {| Reservation.id := "res-2" |}.
Definition pay1 : Payment.t := {| Payment.id := "pay-1" |}.
Definition ord1 : Order.t := {| Order.id := "ord-1" |}.

(** Every service answers. *)
Definition all_up : Script :=
  {| on_reserve := Normal res1;
     on_cancelReservation := Normal tt;
     on_charge := Normal pay1;
     on_refund := Normal tt;
     on_create := Normal ord1;
     on_cancel := Normal tt;
     on_sendOrderConfirmation := Normal tt |}.

Definition with_reserve (a : Completion Reservation.t) (s : Script) : Script :=
  {| on_reserve := a;
     on_cancelReservation := on_cancelReservation s;
     on_charge := on_charge s;
     on_refund := on_refund s;
     on_create := on_create s;
     on_cancel := on_cancel s;
     on_sendOrderConfirmation := on_sendOrderConfirmation s |}.

Definition with_charge (a : Completion Payment.t) (s : Script) : Script :=
  {| on_reserve := on_reserve s;
     on_cancelReservation := on_cancelReservation s;
     on_charge := a;
     on_refund := on_refund s;
     on_create := on_create s;
     on_cancel := on_cancel s;
     on_sendOrderConfirmation := on_sendOrderConfirmation s |}.

Definition with_refund (a : Completion unit) (s : Script) : Script :=
  {| on_reserve := on_reserve s;
     on_cancelReservation := on_cancelReservation s;
     on_charge := on_charge s;
     on_refund := a;
     on_create := on_create s;
     on_cancel := on_cancel s;
     on_sendOrderConfirmation := on_sendOrderConfirmation s |}.

Definition with_create (a : Completion Order.t) (s : Script) : Script :=
  {| on_reserve := on_reserve s;
     on_cancelReservation := on_cancelReservation s;
     on_charge := on_charge s;
     on_refund := on_refund s;
     on_create := a;
     on_cancel := on_cancel s;
     on_sendOrderConfirmation := on_sendOrderConfirmation s |}.

Definition with_send (a : Completion unit) (s : Script) : Script :=
  {| on_reserve := on_reserve s;
     on_cancelReservation := on_cancelReservation s;
     on_charge := on_charge s;
     on_refund := on_refund s;
     on_create := on_create s;
     on_cancel := on_cancel s;
     on_sendOrderConfirmation := a |}.

Definition out_of_stock : World :=
  scripted (with_reserve (Throw (Error "insufficient stock")) all_up).
Definition card_declined : World :=
  scripted (with_charge (Throw (Error "card declined")) all_up).
Definition store_down : World :=
  scripted (with_create (Throw (Error "orders table unavailable")) all_up).
Definition store_and_refund_down : World :=
  scripted (with_refund (Throw (Error "refund rejected"))
              (with_create (Throw (Error "orders table unavailable")) all_up)).
Definition notifier_down : World :=
  scripted (with_send (Throw (Error "smtp unreachable")) all_up).
Definition all_up_second_reservation : World :=
  scripted (with_reserve (Normal res2) all_up).

(** Three items in stock and a valid payment. *)
Definition three_items : CreateOrderRequest :=
  {| userId := "user-1";
     items :=
       [ {| productId := "prod-1"; quantity := 1; unitPrice := 1000 |};
         {| productId := "prod-2"; quantity := 2; unitPrice := 250 |};
         {| productId := "prod-3"; quantity := 1; unitPrice := 500 |} ];
     shippingAddress := "1 Main Street";
     payment := {| method := "pm-card-1"; amount := 2000; currency := "USD" |} |}.

(** *** The statements of the specification that the code does not meet,
    as they are written *)

(** "Failure of the notify step alone": steps 1-3 succeed, the
    notification fails.  The specification promises a success result and
    no compensating call. *)
Definition degraded_success_on_notification_failure
  (w : World) (orderRequest : CreateOrderRequest) : Prop :=
  forall r p o e,
    w [] (InventoryReserve (items orderRequest)) = Normal r ->
    w [InventoryReserve (items orderRequest)]
      (PaymentCharge (payment orderRequest)) = Normal p ->
    w [InventoryReserve (items orderRequest);
       PaymentCharge (payment orderRequest)]
      (OrderCreate (order_fields orderRequest r p)) = Normal o ->
    w [InventoryReserve (items orderRequest);
       PaymentCharge (payment orderRequest);
       OrderCreate (order_fields orderRequest r p)]
      (NotificationSendOrderConfirmation o) = Throw e ->
    (exists result,
        outcome (processOrder w orderRequest) = Normal result /\
        success result = true) /\
    count is_compensation (calls (processOrder w orderRequest)) = 0.

(** "No update/delete called by this coordinator": every Order Store call
    of the run is the create of step 3. *)
Definition order_store_only_created
  (w : World) (orderRequest : CreateOrderRequest) : Prop :=
  forall c,
    In c (calls (processOrder w orderRequest)) ->
    is_order_store c = true ->
    is_create c = true.

(** "Tagging the transaction with the reservation id": the reservation id
    produced by step 1 can be read off the capture call of step 2. *)
Definition capture_tagged_with_reservation
  (metadata : PaymentInstruction -> Id) : Prop :=
  forall (w : World) (orderRequest : CreateOrderRequest) r,
    w [] (InventoryReserve (items orderRequest)) = Normal r ->
    exists instruction,
      nth_error (calls (processOrder w orderRequest)) 1
        = Some (PaymentCharge instruction) /\
      amount instruction = amount (payment orderRequest) /\
      metadata instruction = Reservation.id r.

End Saga.

(** ** The storefront state and its reducer (src/AppContext.tsx) *)

Module AppContext.

(** The reading of the clock that the ADD_TO_CART case takes:
    [Date.now().toString()] and [new Date().toISOString()]. *)
Record Clock := {
  Date_now_toString : string;
  Date_toISOString : string
}.

Section Reducer.

(** [User], [Product] and [ProductVariant] are carried whole by the
    reducer, which reads [product.id] and nothing else.  [number] is the
    JavaScript number type with its [+]. *)
Variables User Product ProductVariant number : Type.
Variable product_id : Product -> string.
Variable plus : number -> number -> number.

Record CartItem := {
  id : string;
  productId : string;
  product : Product;
  quantity : number;
  variant : option ProductVariant;
  addedAt : string
}.

Record AppState := {
  user : option User;
  cart : list CartItem;
  isAuthenticated : bool;
  loading : bool;
  error : option string
}.

Inductive AppAction : Type :=
| SET_USER (payload : option User)
| SET_CART (payload : list CartItem)
| ADD_TO_CART (payload_product : Product) (payload_quantity : number)
| UPDATE_CART_ITEM (payload_id : string) (payload_quantity : number)
| REMOVE_FROM_CART (payload : string)
| CLEAR_CART
| SET_LOADING (payload : bool)
| SET_ERROR (payload : option string).

(** [{ ...state, cart: c }] *)
Definition with_cart (state : AppState) (c : list CartItem) : AppState :=
  {| user := user state;
     cart := c;
     isAuthenticated := isAuthenticated state;
     loading := loading state;
     error := error state |}.

(** [{ ...item, quantity: q }] *)
Definition with_quantity (item : CartItem) (q : number) : CartItem :=
  {| id := id item;
     productId := productId item;
     product := product item;
     quantity := q;
     variant := variant item;
     addedAt := addedAt item |}.

(** [!!action.payload] on [User | null] *)
Definition truthy (payload : option User) : bool :=
  match payload with Some _ => true | None => false end.

Definition appReducer (clock : Clock) (state : AppState) (action : AppAction)
  : AppState :=
  match action with
  | SET_USER payload =>
      {| user := payload;
         cart := cart state;
         isAuthenticated := truthy payload;
         loading := loading state;
         error := error state |}
  | SET_CART payload => with_cart state payload
  | ADD_TO_CART payload_product payload_quantity =>
      let existingItem :=
        find (fun item => productId item =? product_id payload_product)%string
          (cart state) in
      match existingItem with
      | Some existingItem =>
          with_cart state
            (map (fun item =>
                    if (id item =? id existingItem)%string
                    then with_quantity item (plus (quantity item) payload_quantity)
                    else item)
               (cart state))
      | None =>
          let newItem :=
            {| id := Date_now_toString clock;
               productId := product_id payload_product;
               product := payload_product;
               quantity := payload_quantity;
               variant := None;
               addedAt := Date_toISOString clock |} in
          with_cart state (cart state ++ [newItem])
      end
  | UPDATE_CART_ITEM payload_id payload_quantity =>
      with_cart state
        (map (fun item =>
                if (id item =? payload_id)%string
                then with_quantity item payload_quantity
                else item)
           (cart state))
  | REMOVE_FROM_CART payload =>
      with_cart state
        (filter (fun item => negb (id item =? payload)%string) (cart state))
  | CLEAR_CART => with_cart state []
  | SET_LOADING payload =>
      {| user := user state;
         cart := cart state;
         isAuthenticated := isAuthenticated state;
         loading := payload;
         error := error state |}
  | SET_ERROR payload =>
      {| user := user state;
         cart := cart state;
         isAuthenticated := isAuthenticated state;
         loading := loading state;
         error := payload |}
  end.

(** The cart of the state after ADD_TO_CART. *)
Definition cart_after_add (clock : Clock) (state : AppState)
  (p : Product) (q : number) : list CartItem :=
  cart (appReducer clock state (ADD_TO_CART p q)).

(** The statement about a product that is already in the cart, as it is
    written: one item of that product has its quantity increased, and
    every other position of the cart is as before. *)
Definition only_existing_item_changes (clock : Clock) (state : AppState)
  (p : Product) (q : number) : Prop :=
  (exists item, In item (cart state) /\ productId item = product_id p) ->
  length (cart_after_add clock state p q) = length (cart state) /\
  exists i item,
    nth_error (cart state) i = Some item /\
    productId item = product_id p /\
    nth_error (cart_after_add clock state p q) i
      = Some (with_quantity item (plus (quantity item) q)) /\
    forall j, j <> i ->
      nth_error (cart_after_add clock state p q) j = nth_error (cart state) j.

End Reducer.

Arguments id {Product ProductVariant number} _.
Arguments productId {Product ProductVariant number} _.
Arguments product {Product ProductVariant number} _.
Arguments quantity {Product ProductVariant number} _.
Arguments variant {Product ProductVariant number} _.
Arguments addedAt {Product ProductVariant number} _.
Arguments user {User Product ProductVariant number} _.
Arguments cart {User Product ProductVariant number} _.
Arguments isAuthenticated {User Product ProductVariant number} _.
Arguments loading {User Product ProductVariant number} _.
Arguments error {User Product ProductVariant number} _.
Arguments ADD_TO_CART {User Product ProductVariant number} _ _.
Arguments with_quantity {Product ProductVariant number} _ _.
Arguments appReducer {User Product ProductVariant number} _ _ _ _ _.
Arguments cart_after_add {User Product ProductVariant number} _ _ _ _ _ _.
Arguments only_existing_item_changes
  {User Product ProductVariant number} _ _ _ _ _ _.

(** *** A concrete store: products are their ids, quantities are integers *)

Definition item_of (i pid : string) (q : Z) : CartItem string unit Z :=
  {| id := i; productId := pid; product := pid; quantity := q;
     variant := None; addedAt := "2024-02-15T10:30:00Z" |}.

Definition state_with (c : list (CartItem string unit Z))
  : AppState unit string unit Z :=
  {| user := Some tt; cart := c; isAuthenticated := true;
     loading := false; error := None |}.

Definition noon : Clock :=
  {| Date_now_toString := "1708000000000";
     Date_toISOString := "2024-02-15T12:26:40.000Z" |}.

(** Two cart lines that were created in the same millisecond: different
    products, one [id]. *)
Definition same_millisecond : AppState unit string unit Z :=
  state_with [ item_of "1707990000000" "prod-1" 1;
               item_of "1707990000000" "prod-2" 1 ].

(** The demo cart of the application: ids 1 and 2, products 1 and 3. *)
Definition demo_cart : AppState unit string unit Z :=
  state_with [ item_of "1" "1" 1; item_of "2" "3" 2 ].

End AppContext.

(** ** The components that drive the reducer

    The action creators of src/AppContext.tsx, the handlers of the cart
    page (src/Cart.tsx), the cart badge of the header (src/Header.tsx)
    and the add-to-cart handler of the product card. *)

Module Storefront.
Import AppContext.

Section Components.

Variables User Product ProductVariant number : Type.
Variable product_id : Product -> string.

(** JavaScript [+], [-] and [<] on numbers, and the literals [0] and [1]. *)
Variable plus : number -> number -> number.
Variable minus : number -> number -> number.
Variable lt : number -> number -> bool.
Variables zero one : number.

Local Abbreviation State := (AppState User Product ProductVariant number).
Local Abbreviation Item := (CartItem Product ProductVariant number).
Local Abbreviation Action := (AppAction User Product ProductVariant number).

(** [actions], the action creators. *)
Definition actions_setUser (u : option User) : Action := SET_USER _ _ _ _ u.
Definition actions_setCart (c : list Item) : Action := SET_CART _ _ _ _ c.
Definition actions_addToCart (p : Product) (q : number) : Action :=
  ADD_TO_CART p q.
Definition actions_updateCartItem (i : string) (q : number) : Action :=
  UPDATE_CART_ITEM _ _ _ _ i q.
Definition actions_removeFromCart (i : string) : Action :=
  REMOVE_FROM_CART _ _ _ _ i.
Definition actions_clearCart : Action := CLEAR_CART _ _ _ _.
Definition actions_setLoading (b : bool) : Action := SET_LOADING _ _ _ _ b.
Definition actions_setError (e : option string) : Action := SET_ERROR _ _ _ _ e.

(** [dispatch] of [useReducer(appReducer, initialState)]: the reducer is
    applied to the current state; the clock is read when it runs. *)
Definition dispatch (clock : Clock) (state : State) (action : Action) : State :=
  appReducer product_id plus clock state action.

(** A sequence of dispatches, each with its reading of the clock. *)
Definition dispatch_all (steps : list (Clock * Action)) (state : State) : State :=
  fold_left (fun st step => dispatch (fst step) st (snd step)) steps state.

(** [Cart]: [updateQuantity] returns without dispatching when the new
    quantity is below one. *)
Definition updateQuantity (clock : Clock) (state : State)
  (itemId : string) (newQuantity : number) : State :=
  if lt newQuantity one then state
  else dispatch clock state (actions_updateCartItem itemId newQuantity).

Definition removeItem (clock : Clock) (state : State) (itemId : string) : State :=
  dispatch clock state (actions_removeFromCart itemId).

(** The buttons of a cart line: minus, plus and remove. *)
Definition click_minus (clock : Clock) (state : State) (item : Item) : State :=
  updateQuantity clock state (id item) (minus (quantity item) one).

Definition click_plus (clock : Clock) (state : State) (item : Item) : State :=
  updateQuantity clock state (id item) (plus (quantity item) one).

Definition click_remove (clock : Clock) (state : State) (item : Item) : State :=
  removeItem clock state (id item).

(** [Cart] renders the empty page when [state.cart.length === 0]. *)
Definition shows_empty_cart (state : State) : bool :=
  Nat.eqb (length (cart state)) 0.

(** [Header]: [state.cart.reduce((total, item) => total + item.quantity, 0)]. *)
Definition cartItemsCount (state : State) : number :=
  fold_left (fun total item => plus total (quantity item)) (cart state) zero.

(** [ProductCard]: [handleAddToCart] dispatches [addToCart(product, 1)]. *)
Definition handleAddToCart (clock : Clock) (state : State) (p : Product) : State :=
  dispatch clock state (actions_addToCart p one).

(** A dispatch that cannot make two cart lines share an [id]: a cart that
    is set has pairwise distinct ids, and a line that is added gets an
    [id] that no line of the cart has. *)
Definition keeps_ids_apart (clock : Clock) (state : State) (action : Action) : Prop :=
  match action with
  | SET_CART _ _ _ _ payload => NoDup (map id payload)
  | ADD_TO_CART p _ =>
      (forall item, In item (cart state) -> productId item <> product_id p) ->
      ~ In (Date_now_toString clock) (map id (cart state))
  | _ => True
  end.

(** No line of the cart has a quantity below one. *)
Definition quantities_at_least_one (state : State) : Prop :=
  forall item, In item (cart state) -> lt (quantity item) one = false.

Fixpoint all_keep_ids_apart (steps : list (Clock * Action)) (state : State) : Prop :=
  match steps with
  | [] => True
  | step :: rest =>
      keeps_ids_apart (fst step) state (snd step) /\
      all_keep_ids_apart rest (dispatch (fst step) state (snd step))
  end.

End Components.

Arguments dispatch {User Product ProductVariant number} _ _ _ _ _.
Arguments dispatch_all {User Product ProductVariant number} _ _ _ _.
Arguments updateQuantity {User Product ProductVariant number} _ _ _ _ _ _ _ _.
Arguments removeItem {User Product ProductVariant number} _ _ _ _ _.
Arguments click_minus {User Product ProductVariant number} _ _ _ _ _ _ _ _.
Arguments click_plus {User Product ProductVariant number} _ _ _ _ _ _ _.
Arguments click_remove {User Product ProductVariant number} _ _ _ _ _.
Arguments shows_empty_cart {User Product ProductVariant number} _.
Arguments cartItemsCount {User Product ProductVariant number} _ _ _.
Arguments handleAddToCart {User Product ProductVariant number} _ _ _ _ _ _.
Arguments keeps_ids_apart {User Product ProductVariant number} _ _ _ _.
Arguments all_keep_ids_apart {User Product ProductVariant number} _ _ _.
Arguments quantities_at_least_one {User Product ProductVariant number} _ _ _.

(** The concrete store of [AppContext], with integer quantities. *)
Definition product_7 : string := "7".

(** A visit: two products that the demo cart does not have are added,
    then the first line of the demo cart is removed. *)
Definition visit : list (Clock * AppAction unit string unit Z) :=
  [ (noon, ADD_TO_CART product_7 2%Z);
    ({| Date_now_toString := "1708003600000";
        Date_toISOString := "2024-02-15T13:26:40.000Z" |},
     ADD_TO_CART "9" 1%Z);
    (noon, REMOVE_FROM_CART _ _ _ _ "1") ].

Definition one_pm : Clock :=
  {| Date_now_toString := "1708003600000";
     Date_toISOString := "2024-02-15T13:26:40.000Z" |}.

End Storefront.

(** ** The k6 load-test script (src/load-test-scenarios.js, lines 1-506)

    The script talks to the platform through [http], records three custom
    metrics and the outcome of checks, and sleeps.  A run is a
    computation over what has been sent and recorded so far; the platform
    answers each request as a function of the requests sent before it.
    [http.get], [http.post], [http.put] and [http.del] return a response
    (k6 reports a failed request as a response, not as an exception). *)

Module LoadTest.

Inductive Verb := GET | POST | PUT | DEL.

Record Request := {
  verb : Verb;
  url : string;
  body : option string;
  headers : list (string * string)
}.

Section Script.

(** JavaScript numbers that the script only passes on: durations and the
    values drawn from [Math.random()].  [lit] is the number that a decimal
    literal of the script denotes, [le_int x n] is [x <= n] for an integer
    [n], [toString] is the conversion of a status code in a template
    literal. *)
Variable number : Type.
Variable lit : string -> number.
Variable le_int : number -> Z -> bool.
Variable toString : Z -> string.

(** The values passed as payloads other than [null], [JSON.stringify] on
    them, and whether a value is truthy (an object is; [0], the empty
    string and [false] are not). *)
Variable Payload : Type.
Variable JSON_stringify : Payload -> string.
Variable truthy : Payload -> bool.

Record Response := {
  status : Z;
  timings_duration : number
}.

(** What the run has done so far: the requests sent, the custom metrics
    [requestCount], [responseTime] and [errorRate], the checks, the
    sleeps and the console. *)
Record K6 := {
  sent : list Request;
  requestCount : Z;
  responseTime : list number;
  errorRate : list bool;
  checks : list (string * bool);
  slept : list number;
  console : list string
}.

Definition Platform := list Request -> Request -> Response.

Variable platform : Platform.

(** [__ENV.BASE_URL] *)
Variable ENV_BASE_URL : option string.

(** [__ENV.BASE_URL || 'http://localhost:8080'] *)
Definition BASE_URL : string :=
  match ENV_BASE_URL with
  | Some u => if (u =? "")%string then "http://localhost:8080" else u
  | None => "http://localhost:8080"
  end.

Definition API_BASE : string := BASE_URL ++ "/api/v1".

Definition http_request (r : Request) : Eff K6 Response :=
  fun st =>
    (Normal (platform (sent st) r),
     {| sent := sent st ++ [r];
        requestCount := requestCount st;
        responseTime := responseTime st;
        errorRate := errorRate st;
        checks := checks st;
        slept := slept st;
        console := console st |}).

Definition requestCount_add (n : Z) : Eff K6 unit :=
  modify (fun st =>
    {| sent := sent st;
       requestCount := requestCount st + n;
       responseTime := responseTime st;
       errorRate := errorRate st;
       checks := checks st;
       slept := slept st;
       console := console st |}).

Definition responseTime_add (d : number) : Eff K6 unit :=
  modify (fun st =>
    {| sent := sent st;
       requestCount := requestCount st;
       responseTime := responseTime st ++ [d];
       errorRate := errorRate st;
       checks := checks st;
       slept := slept st;
       console := console st |}).

Definition errorRate_add (b : bool) : Eff K6 unit :=
  modify (fun st =>
    {| sent := sent st;
       requestCount := requestCount st;
       responseTime := responseTime st;
       errorRate := errorRate st ++ [b];
       checks := checks st;
       slept := slept st;
       console := console st |}).

(** [check(response, { name: test, ... })] with the tests evaluated. *)
Definition check (results : list (string * bool)) : Eff K6 unit :=
  modify (fun st =>
    {| sent := sent st;
       requestCount := requestCount st;
       responseTime := responseTime st;
       errorRate := errorRate st;
       checks := checks st ++ results;
       slept := slept st;
       console := console st |}).

Definition sleep (seconds : number) : Eff K6 unit :=
  modify (fun st =>
    {| sent := sent st;
       requestCount := requestCount st;
       responseTime := responseTime st;
       errorRate := errorRate st;
       checks := checks st;
       slept := slept st ++ [seconds];
       console := console st |}).

Definition console_log (line : string) : Eff K6 unit :=
  modify (fun st =>
    {| sent := sent st;
       requestCount := requestCount st;
       responseTime := responseTime st;
       errorRate := errorRate st;
       checks := checks st;
       slept := slept st;
       console := console st ++ [line] |}).

(** Reading a property of [undefined]. *)
Definition TypeError_undefined (property : string) : JsError :=
  Error ("TypeError: cannot read property '" ++ property ++ "' of undefined").

(** [if (token)] on [null] or a string. *)
Definition token_given (token : option string) : bool :=
  match token with
  | Some t => negb (t =? "")%string
  | None => false
  end.

(** [`Bearer ${token}`] *)
Definition bearer (token : option string) : string :=
  "Bearer " ++ match token with Some t => t | None => "null" end.

(** [payload ? JSON.stringify(payload) : null] *)
Definition stringified (payload : option Payload) : option string :=
  match payload with
  | Some p => if truthy p then Some (JSON_stringify p) else None
  | None => None
  end.

Definition makeAuthenticatedRequest (method : string) (url : string)
  (payload : option Payload) (token : option string) : Eff K6 Response :=
  let params_headers :=
    [("Content-Type", "application/json")]
    ++ (if token_given token then [("Authorization", bearer token)] else []) in
  response <-
    (if (method =? "GET")%string then
       r <- http_request {| verb := GET; url := url; body := None;
                            headers := params_headers |} ;; ret (Some r)
     else if (method =? "POST")%string then
       r <- http_request {| verb := POST; url := url; body := stringified payload;
                            headers := params_headers |} ;; ret (Some r)
     else if (method =? "PUT")%string then
       r <- http_request {| verb := PUT; url := url; body := stringified payload;
                            headers := params_headers |} ;; ret (Some r)
     else if (method =? "DELETE")%string then
       r <- http_request {| verb := DEL; url := url; body := None;
                            headers := params_headers |} ;; ret (Some r)
     else ret None) ;;
  (* Record metrics *)
  requestCount_add 1 ;;
  match response with
  | None => throw (TypeError_undefined "timings")
  | Some response =>
      responseTime_add (timings_duration response) ;;
      errorRate_add (400 <=? status response)%Z ;;
      ret response
  end.

(** The body of the loop of [rateLimitTest], for the iterations that are
    left. *)
Fixpoint rateLimitTest_loop (left : nat) : Eff K6 unit :=
  match left with
  | O => ret tt
  | S left' =>
      response <- makeAuthenticatedRequest "GET" (API_BASE ++ "/products")
                    None None ;;
      if (status response =? 429)%Z then
        check [("rate limit triggered", (status response =? 429)%Z)]
      else
        sleep (lit "0.1") ;;
        rateLimitTest_loop left'
  end.

Definition rateLimitTest : Eff K6 unit := rateLimitTest_loop 20.

(** [setup]: the value returned is the [baseUrl] of [{ baseUrl: BASE_URL }]. *)
Definition setup : Eff K6 string :=
  console_log "Starting load test..." ;;
  console_log ("Target URL: " ++ BASE_URL) ;;
  response <- http_request {| verb := GET; url := BASE_URL ++ "/health";
                              body := None; headers := [] |} ;;
  if negb (status response =? 200)%Z then
    throw (Error ("API health check failed: " ++ toString (status response)))
  else
    console_log "API health check passed" ;;
    ret BASE_URL.

(** The five user journeys, which the main function only calls. *)
Variables browseProducts userRegistrationFlow shoppingCartFlow
  completeOrderFlow userProfileFlow : Eff K6 unit.

Definition scenarios : list (Eff K6 unit) :=
  [browseProducts; userRegistrationFlow; shoppingCartFlow;
   completeOrderFlow; userProfileFlow].

Definition weights : list Z := [40; 5; 25; 15; 15]%Z.

(** The loop of the main function from index [i] on: [ss] and [ws] are
    what is left of [scenarios] and [weights].  Without a weight the sum
    is not a number and no comparison succeeds. *)
Fixpoint select_scenario (random : number) (cumulativeWeight : Z)
  (ss : list (Eff K6 unit)) (ws : list Z) : Eff K6 unit :=
  match ss, ws with
  | scenario :: ss', weight :: ws' =>
      if le_int random (cumulativeWeight + weight)%Z then scenario
      else select_scenario random (cumulativeWeight + weight)%Z ss' ws'
  | _, _ => ret tt
  end.

(** The default export; [random] is the value of [Math.random() * 100] and
    [think] the value of [Math.random() * 4 + 1]. *)
Definition main (random think : number) : Eff K6 unit :=
  select_scenario random 0%Z scenarios weights ;;
  sleep think.

End Script.

Arguments status {number} _.
Arguments timings_duration {number} _.
Arguments sent {number} _.
Arguments requestCount {number} _.
Arguments responseTime {number} _.
Arguments errorRate {number} _.
Arguments checks {number} _.
Arguments slept {number} _.
Arguments console {number} _.

(** A platform that answers 200 twice and then 429, and one that is
    down; durations are milliseconds. *)
Definition throttling : Platform Z :=
  fun before _ =>
    if (length before <? 2)%nat
    then {| status := 200; timings_duration := 12%Z |}
    else {| status := 429; timings_duration := 3%Z |}.

Definition unavailable : Platform Z :=
  fun _ _ => {| status := 503; timings_duration := 1%Z |}.

(** Two payloads: the empty object, and the number zero, which is not
    truthy. *)
Inductive SamplePayload := EmptyObject | Zero.

Definition sample_stringify (p : SamplePayload) : string :=
  match p with EmptyObject => "{}" | Zero => "0" end.

Definition sample_truthy (p : SamplePayload) : bool :=
  match p with EmptyObject => true | Zero => false end.

(** The decimal writing of a status code. *)
Definition decimal (n : Z) : string := NilZero.string_of_int (Z.to_int n).

(** Journeys that only leave their name on the console. *)
Definition journey (name : string) : Eff (K6 Z) unit := console_log Z name.

Definition fresh_run : K6 Z :=
  {| sent := []; requestCount := 0; responseTime := []; errorRate := [];
     checks := []; slept := []; console := [] |}.

End LoadTest.

(** ** The payment service and the traced order service
    (src/load-test-scenarios.js, lines 1216-1264 and 2255-2296) *)

Module Services.

(** [try { body } finally { cleanup }]: the cleanup runs however the body
    ends, and the completion of the body stands unless the cleanup
    throws. *)
Definition try_finally {S A} (body : Eff S A) (cleanup : Eff S unit) : Eff S A :=
  fun s =>
    match body s with
    | (completion, s') =>
        match cleanup s' with
        | (Normal _, s'') => (completion, s'')
        | (Throw e, s'') => (Throw e, s'')
        end
    end.

(** A JavaScript [Map] with string keys, in insertion order. *)
Fixpoint Map_set {V} (key : string) (value : V) (m : list (string * V))
  : list (string * V) :=
  match m with
  | [] => [(key, value)]
  | (k, v) :: rest =>
      if (k =? key)%string then (k, value) :: rest
      else (k, v) :: Map_set key value rest
  end.

Fixpoint Map_get {V} (key : string) (m : list (string * V)) : option V :=
  match m with
  | [] => None
  | (k, v) :: rest => if (k =? key)%string then Some v else Map_get key rest
  end.

Section PaymentService.

(** The store that the gateways work on, the amounts, and what a gateway
    returns are not looked at by the service. *)
Variables Store number PaymentResult : Type.

Record PaymentRequest := {
  gateway : string;
  amount : number;
  currency : string;
  paymentMethodId : string;
  orderId : string;
  customerId : string
}.

(** [interface PaymentGateway], of which the service uses
    [processPayment]. *)
Record PaymentGateway := {
  gateway_processPayment : PaymentRequest -> Eff Store PaymentResult
}.

(** [new StripeGateway()], [new PayPalGateway()], [new RazorPayGateway()] *)
Variables StripeGateway PayPalGateway RazorPayGateway : PaymentGateway.

(** The constructor of [PaymentService]. *)
Definition gateways : list (string * PaymentGateway) :=
  Map_set "razorpay" RazorPayGateway
    (Map_set "paypal" PayPalGateway
       (Map_set "stripe" StripeGateway [])).

Definition PaymentService_processPayment (request : PaymentRequest)
  : Eff Store PaymentResult :=
  match Map_get (gateway request) gateways with
  | None =>
      throw (Error ("Unsupported payment gateway: " ++ gateway request))
  | Some found => gateway_processPayment found request
  end.

End PaymentService.

Arguments gateway {number} _.
Arguments gateway_processPayment {Store number PaymentResult} _ _.

(** *** OrderService.processOrder, with its spans *)

Section OrderService.

Variable number : Type.

(** [CreateOrderRequest] as this service reads it. *)
Record OrderData := {
  id : string;
  total : number;
  userId : string;
  payment : PaymentRequest number
}.

Inductive AttributeValue := Text (s : string) | Number (n : number).

Inductive SpanStatus :=
| OK
| ERROR (error : JsError).   (* [{ code: ERROR, message: error.message }] *)

(** What the tracer is asked to do; spans are told apart by their name. *)
Inductive TraceOp :=
| StartSpan (name : string) (parent : option string)
| SetAttributes (span : string) (attributes : list (string * AttributeValue))
| SetStatus (span : string) (status : SpanStatus)
| EndSpan (span : string).

(** [this.validateOrder], [this.paymentService.processPayment],
    [this.createOrder]. *)
Inductive ServiceCall :=
| ValidateOrder (orderData : OrderData)
| ProcessPayment (request : PaymentRequest number)
| CreateOrder (orderData : OrderData) (paid : Saga.Payment.t).

Definition answer (c : ServiceCall) : Type :=
  match c with
  | ValidateOrder _ => unit
  | ProcessPayment _ => Saga.Payment.t
  | CreateOrder _ _ => Saga.Order.t
  end.

Inductive Event :=
| Traced (op : TraceOp)
| Called (c : ServiceCall).

Definition Log := list Event.

Definition Backend := Log -> forall c : ServiceCall, Completion (answer c).

Variable backend : Backend.

(** The tracing calls ([startSpan], [setAttributes], [setStatus], [end])
    are recorded and do not throw. *)
Definition trace (op : TraceOp) : Eff Log unit :=
  fun log => (Normal tt, log ++ [Traced op]).

Definition call (c : ServiceCall) : Eff Log (answer c) :=
  fun log => (backend log c, log ++ [Called c]).

Definition processOrder (orderData : OrderData) : Eff Log Saga.Order.t :=
  trace (StartSpan "process-order" None) ;;
  try_finally
    (try_catch
       (trace (SetAttributes "process-order"
                 [("order.id", Text (id orderData));
                  ("order.total", Number (total orderData));
                  ("user.id", Text (userId orderData))]) ;;
        (* Step 1: Validate order *)
        trace (StartSpan "validate-order" (Some "process-order")) ;;
        call (ValidateOrder orderData) ;;
        trace (EndSpan "validate-order") ;;
        (* Step 2: Process payment *)
        trace (StartSpan "process-payment" (Some "process-order")) ;;
        paid <- call (ProcessPayment (payment orderData)) ;;
        trace (SetAttributes "process-payment"
                 [("payment.id", Text (Saga.Payment.id paid))]) ;;
        trace (EndSpan "process-payment") ;;
        (* Step 3: Create order *)
        order <- call (CreateOrder orderData paid) ;;
        trace (SetStatus "process-order" OK) ;;
        trace (SetAttributes "process-order"
                 [("order.created_id", Text (Saga.Order.id order))]) ;;
        ret order)
       (fun error =>
          trace (SetStatus "process-order" (ERROR error)) ;;
          throw error))
    (trace (EndSpan "process-order")).

(** Spans started and ended in a log. *)
Definition started (name : string) (e : Event) : bool :=
  match e with
  | Traced (StartSpan n _) => (n =? name)%string
  | _ => false
  end.

Definition ended (name : string) (e : Event) : bool :=
  match e with
  | Traced (EndSpan n) => (n =? name)%string
  | _ => false
  end.

Definition is_call (e : Event) : bool :=
  match e with Called _ => true | Traced _ => false end.

Definition times (test : Event -> bool) (log : Log) : nat :=
  length (filter test log).

End OrderService.

Arguments ValidateOrder {number} _.
Arguments ProcessPayment {number} _.
Arguments CreateOrder {number} _ _.
Arguments Called {number} _.
Arguments Traced {number} _.
Arguments StartSpan {number} _ _.
Arguments EndSpan {number} _.
Arguments SetStatus {number} _ _.
Arguments started {number} _ _.
Arguments ended {number} _ _.
Arguments is_call {number} _.
Arguments times {number} _ _.
Arguments payment {number} _.
Arguments processOrder {number} _ _.

(** A backend that validates and declines the payment. *)
Definition declining : Backend Z :=
  fun _ c =>
    match c return Completion (answer Z c) with
    | ValidateOrder _ => Normal tt
    | ProcessPayment _ => Throw (Error "card declined")
    | CreateOrder _ _ => Normal {| Saga.Order.id := "ord-9" |}
    end.

Definition order_9 : OrderData Z :=
  {| id := "ord-9"; total := 2000%Z; userId := "user-1";
     payment := {| gateway := "stripe"; amount := 2000%Z; currency := "USD";
                   paymentMethodId := "pm-card-1"; orderId := "ord-9";
                   customerId := "user-1" |} |}.

(** Gateways that only leave their name in a list. *)
Definition named_gateway (name : string)
  : PaymentGateway (list string) Z string :=
  {| gateway_processPayment :=
       fun _ => fun used => (Normal name, used ++ [name]) |}.

End Services.

(** ** The shape of a saga run *)

Module SagaRuns.
Import Saga.

(** The forward calls: reserve, charge, create, send. *)
Definition is_forward (c : Call) : bool := negb (is_compensation c).

(** The four steps answered normally. *)
Definition all_steps_answered (w : World) (orderRequest : CreateOrderRequest)
  (o : Order.t) : Prop :=
  exists r p,
    w [] (InventoryReserve (items orderRequest)) = Normal r /\
    w [InventoryReserve (items orderRequest)]
      (PaymentCharge (payment orderRequest)) = Normal p /\
    w [InventoryReserve (items orderRequest);
       PaymentCharge (payment orderRequest)]
      (OrderCreate (order_fields orderRequest r p)) = Normal o /\
    w [InventoryReserve (items orderRequest);
       PaymentCharge (payment orderRequest);
       OrderCreate (order_fields orderRequest r p)]
      (NotificationSendOrderConfirmation o) = Normal tt.

End SagaRuns.

(** ** The orders table

    [orderRepository.create] is not in the sources.  What is in the
    sources is the argument that step 3 passes to it and the schema of the
    table it writes to (src/load-test-scenarios.js, lines 1160-1176), in
    which [status] is declared [VARCHAR(50) DEFAULT 'pending']. *)

Module OrderStore.
Import Saga.







End OrderStore.

(** ** Properties of the order saga *)

Module SagaSpec.
Import Saga.

(** *** The saga transaction on its own *)

Section Transaction.

Context {A : Type}.
Variables (action : Collab A) (compensation : A -> Collab unit).
Variables (h h' : History) (saga : SagaTransaction).

(** A forward action that succeeds records its compensation. *)
Lemma execute_succeeds (a : A) :
  action h = (Normal a, h') ->
  execute action compensation (h, saga)
    = (Normal a, (h', push_compensation (compensation a) saga)).
Proof.
  intros Hrun. unfold execute, try_catch, bind, await, update_saga, modify, ret.
  rewrite Hrun. reflexivity.
Qed.

(** A forward action that fails records nothing to compensate. *)
Lemma execute_fails (e : JsError) :
  action h = (Throw e, h') ->
  execute action compensation (h, saga) = (Throw e, (h', set_failure e saga)).
Proof.
  intros Hrun. unfold execute, try_catch, bind, await, update_saga, modify, throw.
  rewrite Hrun. reflexivity.
Qed.

End Transaction.

(** One step of the rollback. *)
Lemma compensate_cons_ok (undo : Collab unit) (earlier : list (Collab unit))
    (h hu : History) (saga : SagaTransaction) :
  undo h = (Normal tt, hu) ->
  compensate (undo :: earlier) (h, saga)
    = compensate earlier (hu, set_compensations earlier saga).
Proof.
  intros Hundo. cbn [compensate].
  unfold bind, try_catch, await, update_saga, modify. rewrite Hundo. reflexivity.
Qed.

Lemma compensate_cons_fail (undo : Collab unit) (earlier : list (Collab unit))
    (h hu : History) (saga : SagaTransaction) (detail : JsError) :
  undo h = (Throw detail, hu) ->
  compensate (undo :: earlier) (h, saga)
    = (Throw (CompensationError (failure saga) detail),
       (hu, set_status RollbackFailed (set_compensations earlier saga))).
Proof.
  intros Hundo. cbn [compensate].
  unfold bind, try_catch, await, update_saga, modify, this_saga, get, ret, throw.
  rewrite Hundo. reflexivity.
Qed.

Lemma all_undone_tail (undo : Collab unit) (earlier : list (Collab unit))
    (h : History) :
  all_undone (undo :: earlier) h ->
  fst (undo h) = Normal tt /\ all_undone earlier (snd (undo h)).
Proof.
  intros Hall. split.
  - apply (Hall [] undo earlier). reflexivity.
  - intros before u after Heq. subst earlier.
    apply (Hall (undo :: before) u after). reflexivity.
Qed.

(** When no compensation fails, each runs once, in the order of the stack
    (the newest first), and the run is marked rolled back. *)
Lemma compensate_all (pending : list (Collab unit)) :
  forall h saga,
    all_undone pending h ->
    fst (compensate pending (h, saga)) = Normal tt /\
    fst (snd (compensate pending (h, saga))) = undone pending h /\
    status (snd (snd (compensate pending (h, saga)))) = RolledBack.
Proof.
  induction pending as [|undo earlier IH]; intros h saga Hall.
  - repeat split.
  - destruct (all_undone_tail _ _ _ Hall) as [Hfirst Hrest].
    destruct (undo h) as [[[]|e] hu] eqn:Hundo; cbn in Hfirst, Hrest;
      try discriminate.
    rewrite (compensate_cons_ok _ _ _ _ _ Hundo).
    change (undone (undo :: earlier) h) with (undone earlier (snd (undo h))).
    rewrite Hundo. apply IH. exact Hrest.
Qed.

(** The first compensation that fails ends the rollback: the ones below it
    on the stack ([after]) are not run, the run is marked rollback-failed,
    and the error raised carries the triggering error and the failure. *)
Lemma compensate_halts (before : list (Collab unit)) :
  forall undo after h saga detail,
    all_undone before h ->
    fst (undo (undone before h)) = Throw detail ->
    compensate (before ++ undo :: after) (h, saga)
      = (Throw (CompensationError (failure saga) detail),
         (snd (undo (undone before h)),
          set_status RollbackFailed (set_compensations after saga))).
Proof.
  induction before as [|u before IH]; intros undo after h saga detail Hall Hfail.
  - cbn in *. destruct (undo h) as [[[]|e] hu] eqn:Hundo; cbn in Hfail;
      try discriminate.
    inversion Hfail; subst. apply compensate_cons_fail. exact Hundo.
  - destruct (all_undone_tail _ _ _ Hall) as [Hfirst Hrest].
    change (undone (u :: before) h) with (undone before (snd (u h))) in *.
    destruct (u h) as [[[]|e] hu] eqn:Hu; cbn [fst snd] in *; try discriminate.
    cbn [app]. rewrite (compensate_cons_ok _ _ _ _ _ Hu).
    rewrite (IH undo after hu _ detail Hrest Hfail). reflexivity.
Qed.

(** *** The runs of [processOrder] *)

Section Runs.

Variable w : World.
Variable req : CreateOrderRequest.

Local Abbreviation reserve_call := (InventoryReserve (items req)).
Local Abbreviation charge_call := (PaymentCharge (payment req)).
Local Abbreviation create_call r p := (OrderCreate (order_fields req r p)).
Local Abbreviation send_call o := (NotificationSendOrderConfirmation o).
Local Abbreviation release_call r := (InventoryCancelReservation (Reservation.id r)).
Local Abbreviation refund_call p := (PaymentRefund (Payment.id p)).
Local Abbreviation cancel_call o := (OrderCancel (Order.id o)).
Local Abbreviation run := (processOrder w req).


(** C5.  When the reservation fails, [processOrder] returns
    [{ success: false, error }] with the error of the inventory service;
    the reserve call is the only call of the run: nothing is charged,
    stored, notified or compensated. *)
Theorem reservation_failure_aborts (e : JsError) :
  w [] reserve_call = Throw e ->
  outcome run = Normal (failed e) /\
  calls run = [reserve_call] /\
  count is_charge (calls run) = 0 /\
  count is_order_store (calls run) = 0 /\
  count is_send (calls run) = 0 /\
  count is_compensation (calls run) = 0.
Proof.
  intros H1.
  assert (Hcalls : calls run = [reserve_call])
    by (saga_unfold; repeat answer_known; reflexivity).
  rewrite Hcalls. repeat split; try reflexivity.
  saga_unfold; repeat answer_known; reflexivity.
Qed.

(** C6.  When the reservation succeeds and the charge fails, the calls of
    the run are the reserve, the charge and one [cancelReservation] with
    the id of the reservation of step 1: no Order Store call and no
    notification.  When that release succeeds, [processOrder] returns
    [{ success: false, error }] with the error of the payment service. *)
Theorem payment_failure_releases_reservation (r : Reservation.t) (e : JsError) :
  w [] reserve_call = Normal r ->
  w [reserve_call] charge_call = Throw e ->
  calls run = [reserve_call; charge_call; release_call r] /\
  count is_release (calls run) = 1 /\
  count is_order_store (calls run) = 0 /\
  count is_send (calls run) = 0 /\
  (w [reserve_call; charge_call] (release_call r) = Normal tt ->
   outcome run = Normal (failed e) /\ final_status run = RolledBack).
Proof.
  intros H1 H2.
  assert (Hcalls : calls run = [reserve_call; charge_call; release_call r])
    by (saga_unfold; repeat answer_known; answer_cases w; reflexivity).
  rewrite Hcalls. repeat split; try reflexivity;
    saga_unfold; repeat answer_known; reflexivity.
Qed.

(** C3.  When reservation and charge succeed and the order write fails,
    the refund is called exactly once, right after the failed write; when
    the refund succeeds the release follows, once, so that the calls are
    reserve, charge, create, refund, release in that order; and when the
    release succeeds as well the saga is marked rolled back and
    [processOrder] returns [{ success: false, error }] with the error of
    the store. *)
Theorem store_failure_refunds_then_releases
    (r : Reservation.t) (p : Payment.t) (e : JsError) :
  w [] reserve_call = Normal r ->
  w [reserve_call] charge_call = Normal p ->
  w [reserve_call; charge_call] (create_call r p) = Throw e ->
  firstn 4 (calls run)
    = [reserve_call; charge_call; create_call r p; refund_call p] /\
  count is_refund (calls run) = 1 /\
  (w [reserve_call; charge_call; create_call r p] (refund_call p) = Normal tt ->
   calls run = [reserve_call; charge_call; create_call r p;
                refund_call p; release_call r] /\
   count is_release (calls run) = 1 /\
   (w [reserve_call; charge_call; create_call r p; refund_call p]
      (release_call r) = Normal tt ->
    outcome run = Normal (failed e) /\ final_status run = RolledBack)).
Proof.
  intros H1 H2 H3. repeat split.
  - saga_unfold; repeat answer_known; repeat (answer_cases w); reflexivity.
  - saga_unfold; repeat answer_known; repeat (answer_cases w); reflexivity.
  - saga_unfold; repeat answer_known; answer_cases w; reflexivity.
  - saga_unfold; repeat answer_known; answer_cases w; reflexivity.
  - saga_unfold; repeat answer_known; reflexivity.
  - saga_unfold; repeat answer_known; reflexivity.
Qed.

(** C1, as the code has it.  When steps 1-3 succeed and the confirmation
    fails, [processOrder] rolls the saga back: the order is cancelled, and
    with the compensations succeeding the payment is refunded and the
    reservation released, in that order; the result is
    [{ success: false, error }] with the error of the notification
    service. *)
Theorem notification_failure_rolls_back
    (r : Reservation.t) (p : Payment.t) (o : Order.t) (e : JsError) :
  w [] reserve_call = Normal r ->
  w [reserve_call] charge_call = Normal p ->
  w [reserve_call; charge_call] (create_call r p) = Normal o ->
  w [reserve_call; charge_call; create_call r p] (send_call o) = Throw e ->
  w [reserve_call; charge_call; create_call r p; send_call o]
    (cancel_call o) = Normal tt ->
  w [reserve_call; charge_call; create_call r p; send_call o; cancel_call o]
    (refund_call p) = Normal tt ->
  w [reserve_call; charge_call; create_call r p; send_call o; cancel_call o;
     refund_call p]
    (release_call r) = Normal tt ->
  outcome run = Normal (failed e) /\
  calls run = [reserve_call; charge_call; create_call r p; send_call o;
               cancel_call o; refund_call p; release_call r] /\
  final_status run = RolledBack.
Proof.
  intros H1 H2 H3 H4 H5 H6 H7.
  saga_unfold. repeat answer_known. repeat split.
Qed.

(** C4.  A compensating call that fails is the last call of the run: the
    rollback stops there, so after a failed refund no release is made, and
    after a failed order cancellation neither refund nor release.  The
    saga is marked rollback-failed, and [processOrder] does not return an
    [OrderResult]: it ends with a [CompensationError] that carries the
    error of the forward step that triggered the rollback together with
    the failure of the compensation. *)
Theorem compensation_failure_halts_rollback
    (n : nat) (c : Call) (detail : JsError) :
  nth_error (calls run) n = Some c ->
  is_compensation c = true ->
  w (firstn n (calls run)) c = Throw detail ->
  calls run = firstn n (calls run) ++ [c] /\
  (is_refund c = true -> count is_release (calls run) = 0) /\
  (is_order_cancel c = true ->
   count is_refund (calls run) = 0 /\ count is_release (calls run) = 0) /\
  final_status run = RollbackFailed /\
  exists m forward original,
    m < n /\
    nth_error (calls run) m = Some forward /\
    is_compensation forward = false /\
    w (firstn m (calls run)) forward = Throw original /\
    outcome run = Throw (CompensationError (Some original) detail).
Proof.
  revert n c detail. saga_unfold. repeat (answer_cases w);
    intros n c detail Hnth Hcomp Hthrow; position n; located;
    (repeat split; try reflexivity; try discriminate).
  all: match goal with
       | A : w ?h ?fwd = Throw ?e
         |- context [CompensationError (Some ?e) _] =>
           exists (length h), fwd, e; cbn; repeat split; auto; lia
       end.
Qed.

(** C7.  In every run each compensating action is called at most once, and
    only for a step that succeeded: a [cancelReservation] is made for the
    reservation that step 1 returned, a [refund] for the payment that
    step 2 returned, an order cancellation for the order that step 3
    returned. *)
Theorem compensation_at_most_once_and_only_after_success :
  count is_release (calls run) <= 1 /\
  count is_refund (calls run) <= 1 /\
  count is_order_cancel (calls run) <= 1 /\
  (forall i, In (InventoryCancelReservation i) (calls run) ->
     exists r, w [] reserve_call = Normal r /\ i = Reservation.id r) /\
  (forall i, In (PaymentRefund i) (calls run) ->
     exists r p,
       w [] reserve_call = Normal r /\
       w [reserve_call] charge_call = Normal p /\
       i = Payment.id p) /\
  (forall i, In (OrderCancel i) (calls run) ->
     exists r p o,
       w [] reserve_call = Normal r /\
       w [reserve_call] charge_call = Normal p /\
       w [reserve_call; charge_call] (create_call r p) = Normal o /\
       i = Order.id o).
Proof.
  saga_unfold. repeat (answer_cases w);
    (repeat split; try lia);
    intros i Hin; cbn in Hin;
    repeat match goal with
      | H : _ \/ _ |- _ => destruct H
      | H : False |- _ => destruct H
      | H : _ = _ :> Call |- _ => inversion H; clear H; subst
      end;
    eauto 8.
Qed.

(** C8, as the code has it.  The Order Store receives at most one create,
    with the fields of step 3, and at most one cancellation; the order is
    cancelled only as the compensation of step 3, that is when the order
    was created and the confirmation that followed failed. *)
Theorem order_store_create_and_compensating_cancel :
  count is_create (calls run) <= 1 /\
  count is_order_cancel (calls run) <= 1 /\
  (forall fields, In (OrderCreate fields) (calls run) ->
     exists r p,
       w [] reserve_call = Normal r /\
       w [reserve_call] charge_call = Normal p /\
       fields = order_fields req r p) /\
  (forall i, In (OrderCancel i) (calls run) ->
     exists r p o e,
       w [] reserve_call = Normal r /\
       w [reserve_call] charge_call = Normal p /\
       w [reserve_call; charge_call] (create_call r p) = Normal o /\
       w [reserve_call; charge_call; create_call r p] (send_call o) = Throw e /\
       i = Order.id o /\
       nth_error (calls run) 4 = Some (OrderCancel i)).
Proof.
  saga_unfold. repeat (answer_cases w);
    (repeat split; try lia);
    intros i Hin; cbn in Hin;
    repeat match goal with
      | H : _ \/ _ |- _ => destruct H
      | H : False |- _ => destruct H
      | H : _ = _ :> Call |- _ => inversion H; clear H; subst
      end;
    eauto 10.
Qed.

(** C9, as the code has it.  In every run that reaches step 2 the charge
    is called once, second, with the payment instruction of the request
    as its only argument (hence with the requested amount), whatever the
    reservation of step 1 was.  The reservation id goes to the order
    record of step 3. *)
Theorem charge_receives_payment_instruction (r : Reservation.t) :
  w [] reserve_call = Normal r ->
  nth_error (calls run) 1 = Some charge_call /\
  count is_charge (calls run) = 1 /\
  (forall instruction, In (PaymentCharge instruction) (calls run) ->
     instruction = payment req) /\
  (forall fields, In (OrderCreate fields) (calls run) ->
     inventoryReservationId fields = Reservation.id r).
Proof.
  intros H1. saga_unfold. answer_known. repeat (answer_cases w);
    (repeat split; try reflexivity);
    intros i Hin; cbn in Hin;
    repeat match goal with
      | H : _ \/ _ |- _ => destruct H
      | H : False |- _ => destruct H
      | H : _ = _ :> Call |- _ => inversion H; clear H; subst
      end;
    reflexivity.
Qed.

End Runs.

(** *** The scenarios, run *)


(** Scenario 2: no stock. *)
Lemma reservation_failure_run :
  outcome (processOrder out_of_stock three_items)
    = Normal (failed (Error "insufficient stock")) /\
  calls (processOrder out_of_stock three_items)
    = [InventoryReserve (items three_items)].
Proof.
  destruct (reservation_failure_aborts out_of_stock three_items
              (Error "insufficient stock") eq_refl)
    as (Hout & Hcalls & _).
  exact (conj Hout Hcalls).
Defined.

(** Scenario 3: the gateway declines. *)
Lemma payment_failure_run :
  calls (processOrder card_declined three_items)
    = [InventoryReserve (items three_items);
       PaymentCharge (payment three_items);
       InventoryCancelReservation "res-1"] /\
  outcome (processOrder card_declined three_items)
    = Normal (failed (Error "card declined")).
Proof.
  destruct (payment_failure_releases_reservation card_declined three_items
              res1 (Error "card declined") eq_refl eq_refl)
    as (Hcalls & _ & _ & _ & Hout).
  exact (conj Hcalls (proj1 (Hout eq_refl))).
Defined.

(** Scenario 4: the order write fails. *)
Lemma store_failure_run :
  calls (processOrder store_down three_items)
    = [InventoryReserve (items three_items);
       PaymentCharge (payment three_items);
       OrderCreate (order_fields three_items res1 pay1);
       PaymentRefund "pay-1";
       InventoryCancelReservation "res-1"] /\
  outcome (processOrder store_down three_items)
    = Normal (failed (Error "orders table unavailable")) /\
  final_status (processOrder store_down three_items) = RolledBack.
Proof.
  destruct (store_failure_refunds_then_releases store_down three_items
              res1 pay1 (Error "orders table unavailable")
              eq_refl eq_refl eq_refl)
    as (_ & _ & Hrefunded).
  destruct (Hrefunded eq_refl) as (Hcalls & _ & Hreleased).
  exact (conj Hcalls (Hreleased eq_refl)).
Defined.

(** Scenario 5: the notification fails. *)
Lemma notification_failure_run :
  outcome (processOrder notifier_down three_items)
    = Normal (failed (Error "smtp unreachable")) /\
  calls (processOrder notifier_down three_items)
    = [InventoryReserve (items three_items);
       PaymentCharge (payment three_items);
       OrderCreate (order_fields three_items res1 pay1);
       NotificationSendOrderConfirmation ord1;
       OrderCancel "ord-1";
       PaymentRefund "pay-1";
       InventoryCancelReservation "res-1"] /\
  final_status (processOrder notifier_down three_items) = RolledBack.
Proof.
  exact (notification_failure_rolls_back notifier_down three_items
           res1 pay1 ord1 (Error "smtp unreachable")
           eq_refl eq_refl eq_refl eq_refl eq_refl eq_refl eq_refl).
Defined.

(** Scenario 6: the order write fails and then the refund fails. *)
Lemma refund_failure_run :
  calls (processOrder store_and_refund_down three_items)
    = firstn 3 (calls (processOrder store_and_refund_down three_items))
        ++ [PaymentRefund "pay-1"] /\
  count is_release (calls (processOrder store_and_refund_down three_items)) = 0 /\
  final_status (processOrder store_and_refund_down three_items) = RollbackFailed.
Proof.
  destruct (compensation_failure_halts_rollback store_and_refund_down
              three_items 3 (PaymentRefund "pay-1") (Error "refund rejected")
              eq_refl eq_refl eq_refl)
    as (Hlast & Hrelease & _ & Hstatus & _).
  exact (conj Hlast (conj (Hrelease eq_refl) Hstatus)).
Defined.

(** The charge of scenario 1. *)
Lemma charge_of_three_items :
  nth_error (calls (processOrder (scripted all_up) three_items)) 1
    = Some (PaymentCharge (payment three_items)).
Proof.
  exact (proj1 (charge_receives_payment_instruction (scripted all_up)
                  three_items res1 eq_refl)).
Defined.

(** *** Where the code departs from the specification *)

(** C1 fails with the notifier down: the result is not a success and three
    compensating calls are made. *)
Lemma notification_failure_is_not_degraded_success :
  ~ degraded_success_on_notification_failure notifier_down three_items.
Proof.
  intros Hclaim.
  destruct (Hclaim res1 pay1 ord1 (Error "smtp unreachable")
              eq_refl eq_refl eq_refl eq_refl) as [_ Hnone].
  vm_compute in Hnone. discriminate Hnone.
Qed.


(** C8 fails with the notifier down: the order that step 3 created is
    cancelled on the Order Store. *)
Lemma order_cancelled_when_notification_fails :
  ~ order_store_only_created notifier_down three_items.
Proof.
  intros Hclaim.
  assert (Hcancel : is_create (OrderCancel "ord-1") = true).
  { apply Hclaim; [|reflexivity]. vm_compute. auto 10. }
  discriminate Hcancel.
Qed.

(** C9 fails: two runs on the same request whose reservations differ make
    the same charge call, so no reading of the charge call yields the
    reservation id. *)
Lemma charge_not_tagged_with_reservation :
  ~ exists metadata, capture_tagged_with_reservation metadata.
Proof.
  intros [metadata Hclaim].
  destruct (Hclaim (scripted all_up) three_items res1 eq_refl)
    as (i1 & Hcall1 & _ & Htag1).
  destruct (Hclaim all_up_second_reservation three_items res2 eq_refl)
    as (i2 & Hcall2 & _ & Htag2).
  vm_compute in Hcall1, Hcall2.
  inversion Hcall1; subst i1. inversion Hcall2; subst i2.
  rewrite Htag1 in Htag2. discriminate Htag2.
Qed.

End SagaSpec.

(** ** Properties of the cart reducer *)

Module CartSpec.
Import AppContext.

(** [Array.prototype.find] returns the first element that satisfies the
    test. *)
Lemma find_first {A : Type} (test : A -> bool) (l : list A) (x : A) :
  find test l = Some x ->
  exists i,
    nth_error l i = Some x /\
    test x = true /\
    forall j y, j < i -> nth_error l j = Some y -> test y = false.
Proof.
  induction l as [|a l IH]; cbn; intros Hfind.
  - discriminate.
  - destruct (test a) eqn:Ha.
    + inversion Hfind; subst. exists 0. repeat split; auto.
      intros j y Hj. lia.
    + destruct (IH Hfind) as (i & Hi & Hx & Hbefore).
      exists (S i). repeat split; auto.
      intros [|j] y Hj Hy; cbn in Hy.
      * inversion Hy; subst. exact Ha.
      * apply (Hbefore j); [lia | exact Hy].
Qed.

Lemma find_finds {A : Type} (test : A -> bool) (l : list A) :
  (exists x, In x l /\ test x = true) -> exists x, find test l = Some x.
Proof.
  intros (x & Hin & Hx). destruct (find test l) as [y|] eqn:Hfind.
  - exists y. reflexivity.
  - rewrite (find_none test l Hfind x Hin) in Hx. discriminate.
Qed.

Section ReducerFacts.

Variables User Product ProductVariant number : Type.
Variable product_id : Product -> string.
Variable plus : number -> number -> number.

Local Abbreviation State := (AppState User Product ProductVariant number).
Local Abbreviation Item := (CartItem Product ProductVariant number).
Local Abbreviation reduce := (@appReducer User Product ProductVariant number product_id plus).
Local Abbreviation cart_after :=
  (@cart_after_add User Product ProductVariant number product_id plus).

(** Two cart lines with one [id] sit at one position when ids are
    pairwise distinct. *)
Lemma same_id_same_position (c : list Item) (i j : nat) (x y : Item) :
  NoDup (map id c) ->
  nth_error c i = Some x ->
  nth_error c j = Some y ->
  id y = id x ->
  j = i.
Proof.
  intros Hnodup Hi Hj Hid.
  apply (proj1 (NoDup_nth_error (map id c)) Hnodup).
  - rewrite length_map. apply nth_error_Some. rewrite Hj. discriminate.
  - rewrite !nth_error_map, Hi, Hj. cbn. rewrite Hid. reflexivity.
Qed.

(** The fields other than the cart are those of the state before. *)
Lemma add_to_cart_keeps_session (clock : Clock) (state : State)
    (p : Product) (q : number) :
  user (reduce clock state (ADD_TO_CART p q)) = user state /\
  isAuthenticated (reduce clock state (ADD_TO_CART p q)) = isAuthenticated state /\
  loading (reduce clock state (ADD_TO_CART p q)) = loading state /\
  error (reduce clock state (ADD_TO_CART p q)) = error state.
Proof.
  cbn. destruct (find _ (cart state)); repeat split.
Qed.

(** C10, as the code has it.  ADD_TO_CART leaves [user],
    [isAuthenticated], [loading] and [error] as they are.  When the cart
    has an item of the added product, the cart keeps its length, and with
    [existing] the first such item, every item whose [id] is the [id] of
    [existing] has its quantity increased by the quantity of the action
    and every other item is unchanged; when the ids of the cart are
    pairwise distinct, [existing] is the only item that changes.  When the
    cart has no item of the product, one new item of that product and
    quantity is appended. *)
Theorem add_to_cart_spec (clock : Clock) (state : State)
    (p : Product) (q : number) :
  (user (reduce clock state (ADD_TO_CART p q)) = user state /\
   isAuthenticated (reduce clock state (ADD_TO_CART p q)) = isAuthenticated state /\
   loading (reduce clock state (ADD_TO_CART p q)) = loading state /\
   error (reduce clock state (ADD_TO_CART p q)) = error state) /\
  ((exists item, In item (cart state) /\ productId item = product_id p) ->
   length (cart_after clock state p q) = length (cart state) /\
   exists i existing,
     nth_error (cart state) i = Some existing /\
     productId existing = product_id p /\
     (forall j y, j < i -> nth_error (cart state) j = Some y ->
                  productId y <> product_id p) /\
     nth_error (cart_after clock state p q) i
       = Some (with_quantity existing (plus (quantity existing) q)) /\
     (forall j item, nth_error (cart state) j = Some item ->
        nth_error (cart_after clock state p q) j
          = Some (if (id item =? id existing)%string
                  then with_quantity item (plus (quantity item) q)
                  else item)) /\
     (NoDup (map id (cart state)) ->
      forall j, j <> i ->
        nth_error (cart_after clock state p q) j = nth_error (cart state) j)) /\
  ((forall item, In item (cart state) -> productId item <> product_id p) ->
   exists newItem,
     cart_after clock state p q = cart state ++ [newItem] /\
     product newItem = p /\
     quantity newItem = q /\
     productId newItem = product_id p /\
     id newItem = Date_now_toString clock /\
     addedAt newItem = Date_toISOString clock).
Proof.
  split; [apply add_to_cart_keeps_session|]. split.
  - intros Hsome.
    destruct (find_finds (fun item => productId item =? product_id p)%string
                (cart state)) as [existing Hfind].
    { destruct Hsome as (item & Hin & Hpid). exists item. split; [exact Hin|].
      apply String.eqb_eq. exact Hpid. }
    unfold cart_after_add. cbn. rewrite Hfind. cbn.
    split; [apply length_map|].
    destruct (find_first _ _ _ Hfind) as (i & Hi & Hpid & Hbefore).
    assert (Hmap : forall j item, nth_error (cart state) j = Some item ->
              nth_error
                (map (fun item0 : Item =>
                        if (id item0 =? id existing)%string
                        then with_quantity item0 (plus (quantity item0) q)
                        else item0) (cart state)) j
              = Some (if (id item =? id existing)%string
                      then with_quantity item (plus (quantity item) q)
                      else item)).
    { intros j item Hj. rewrite nth_error_map, Hj. reflexivity. }
    exists i, existing. repeat split.
    + exact Hi.
    + apply String.eqb_eq. exact Hpid.
    + intros j y Hj Hy Heq. apply String.eqb_eq in Heq.
      rewrite (Hbefore j y Hj Hy) in Heq. discriminate.
    + rewrite (Hmap i existing Hi), String.eqb_refl. reflexivity.
    + exact Hmap.
    + intros Hnodup j Hji.
      destruct (nth_error (cart state) j) as [item|] eqn:Hj.
      * rewrite (Hmap j item Hj).
        destruct (id item =? id existing)%string eqn:Hid; [|reflexivity].
        apply String.eqb_eq in Hid.
        elim Hji. exact (same_id_same_position _ _ _ _ _ Hnodup Hi Hj Hid).
      * rewrite nth_error_map, Hj. reflexivity.
  - intros Hnone. unfold cart_after_add. cbn.
    destruct (find (fun item => productId item =? product_id p)%string
                (cart state)) as [existing|] eqn:Hfind.
    + destruct (find_some _ _ Hfind) as [Hin Hpid].
      apply String.eqb_eq in Hpid. elim (Hnone existing Hin Hpid).
    + cbn. eexists. repeat split.
Qed.

End ReducerFacts.

(** The demo cart (ids 1 and 2, pairwise distinct).  One more unit of
    product 3: the cart keeps its two lines and only the line of product 3
    changes, from 2 to 3.  Two units of product 7, which is not in the
    cart: one line is appended. *)
Lemma add_to_demo_cart :
  (length (cart_after_add (fun p : string => p) Z.add noon demo_cart "3" 1%Z)
     = 2 /\
   nth_error (cart_after_add (fun p : string => p) Z.add noon demo_cart "3" 1%Z) 1
     = Some (item_of "2" "3" 3) /\
   nth_error (cart_after_add (fun p : string => p) Z.add noon demo_cart "3" 1%Z) 0
     = Some (item_of "1" "1" 1)) /\
  exists newItem,
    cart_after_add (fun p : string => p) Z.add noon demo_cart "7" 2%Z
      = cart demo_cart ++ [newItem] /\
    product newItem = "7" /\ quantity newItem = 2%Z.
Proof.
  split.
  - destruct (add_to_cart_spec unit string unit Z (fun p => p) Z.add
                noon demo_cart "3" 1%Z) as (_ & Hexisting & _).
    destruct Hexisting as (Hlength & i & existing & Hi & Hpid & _ & Hbump & _ & Hothers).
    { exists (item_of "2" "3" 2). split; [right; left|]; reflexivity. }
    destruct i as [|[|i]]; cbn in Hi.
    + inversion Hi; subst existing. discriminate Hpid.
    + inversion Hi; subst existing. split; [exact Hlength|]. split; [exact Hbump|].
      apply (Hothers ltac:(repeat constructor; cbn; intuition discriminate) 0).
      discriminate.
    + destruct i; discriminate Hi.
  - destruct (add_to_cart_spec unit string unit Z (fun p => p) Z.add
                noon demo_cart "7" 2%Z) as (_ & _ & Hnew).
    destruct Hnew as (newItem & Hcart & Hproduct & Hquantity & _).
    + intros item [<-|[<-|[]]]; discriminate.
    + exists newItem. auto.
Defined.

(** C10 fails on a cart with two lines of one [id]: adding the product of
    the first line increases the quantity of both. *)
Lemma add_to_cart_changes_other_item :
  ~ only_existing_item_changes (fun p : string => p) Z.add
      noon same_millisecond "prod-1" 1%Z.
Proof.
  intros Hclaim. destruct Hclaim as (_ & i & item & Hi & Hpid & _ & Hothers).
  - exists (item_of "1707990000000" "prod-1" 1). split; [left|]; reflexivity.
  - destruct i as [|[|i]]; cbn in Hi.
    + specialize (Hothers 1 ltac:(discriminate)). vm_compute in Hothers.
      discriminate Hothers.
    + inversion Hi; subst. vm_compute in Hpid. discriminate Hpid.
    + destruct i; discriminate Hi.
Qed.

End CartSpec.

(** ** Properties of the reducer and of the components that drive it *)

Module StorefrontSpec.
Import AppContext Storefront.

(** A filter whose test every element passes keeps the list. *)
Lemma filter_all {A : Type} (test : A -> bool) (l : list A) :
  (forall x, In x l -> test x = true) -> filter test l = l.
Proof.
  intros Hall. apply forallb_filter_id. apply forallb_forall. exact Hall.
Qed.

(** A map that changes no element keeps the list. *)
Lemma map_none_changed {A : Type} (f : A -> A) (l : list A) :
  (forall x, In x l -> f x = x) -> map f l = l.
Proof.
  intros Hsame. rewrite <- (map_id l) at 2. apply map_ext_in. exact Hsame.
Qed.

Lemma NoDup_snoc {A : Type} (l : list A) (x : A) :
  NoDup l -> ~ In x l -> NoDup (l ++ [x]).
Proof.
  intros Hl Hx. apply NoDup_app; [exact Hl | repeat constructor; intros [] |].
  intros a Ha [<-|[]]. exact (Hx Ha).
Qed.

Lemma NoDup_map_filter {A B : Type} (f : A -> B) (test : A -> bool) (l : list A) :
  NoDup (map f l) -> NoDup (map f (filter test l)).
Proof.
  induction l as [|a l IH]; cbn; intros Hnodup; [constructor|].
  inversion Hnodup as [|? ? Hnotin Hrest]; subst.
  destruct (test a); cbn; [|exact (IH Hrest)].
  constructor; [|exact (IH Hrest)].
  intros Hin. apply Hnotin. apply in_map_iff in Hin.
  destruct Hin as (x & Hx & Hfilter). apply filter_In in Hfilter.
  apply in_map_iff. exists x. tauto.
Qed.

Section ReducerLaws.

Variables User Product ProductVariant number : Type.
Variable product_id : Product -> string.
Variable plus : number -> number -> number.

Local Abbreviation State := (AppState User Product ProductVariant number).
Local Abbreviation Item := (CartItem Product ProductVariant number).
Local Abbreviation Action := (AppAction User Product ProductVariant number).
Local Abbreviation reduce :=
  (@appReducer User Product ProductVariant number product_id plus).

(** [{ ...state, cart: state.cart }] is the state. *)
Lemma with_cart_same (state : State) :
  with_cart _ _ _ _ state (cart state) = state.
Proof. destruct state; reflexivity. Qed.

(** The update of UPDATE_CART_ITEM and of ADD_TO_CART keeps the [id] and
    the product of every line. *)
Lemma requantified_ids (test : Item -> bool) (q : Item -> number) (c : list Item) :
  map id (map (fun item => if test item then with_quantity item (q item) else item) c)
    = map id c.
Proof.
  rewrite map_map. apply map_ext. intros item. destruct (test item); reflexivity.
Qed.

Lemma requantified_products (test : Item -> bool) (q : Item -> number)
    (c : list Item) :
  map productId
      (map (fun item => if test item then with_quantity item (q item) else item) c)
    = map productId c.
Proof.
  rewrite map_map. apply map_ext. intros item. destruct (test item); reflexivity.
Qed.

(** X1.  REMOVE_FROM_CART removes every line with the given [id] and no other
    line; the rest of the state is untouched. *)
Theorem remove_from_cart_removes_exactly
    (clock : Clock) (state : State) (i : string) :
  (forall item,
      In item (cart (reduce clock state (REMOVE_FROM_CART _ _ _ _ i))) <->
      In item (cart state) /\ id item <> i) /\
  length (cart (reduce clock state (REMOVE_FROM_CART _ _ _ _ i)))
    <= length (cart state) /\
  user (reduce clock state (REMOVE_FROM_CART _ _ _ _ i)) = user state /\
  isAuthenticated (reduce clock state (REMOVE_FROM_CART _ _ _ _ i))
    = isAuthenticated state /\
  loading (reduce clock state (REMOVE_FROM_CART _ _ _ _ i)) = loading state /\
  error (reduce clock state (REMOVE_FROM_CART _ _ _ _ i)) = error state.
Proof.
  cbn. split; [|split; [apply filter_length_le | repeat split]].
  intros item. rewrite filter_In, negb_true_iff, String.eqb_neq. reflexivity.
Qed.

(** X2.  UPDATE_CART_ITEM keeps the lines of the cart, their order, their ids
    and their products; every line with the given [id] gets exactly the
    given quantity, and the other lines are untouched. *)
Theorem update_cart_item_sets_quantity
    (clock : Clock) (state : State) (i : string) (q : number) :
  map id (cart (reduce clock state (UPDATE_CART_ITEM _ _ _ _ i q)))
    = map id (cart state) /\
  map productId (cart (reduce clock state (UPDATE_CART_ITEM _ _ _ _ i q)))
    = map productId (cart state) /\
  (forall j item, nth_error (cart state) j = Some item -> id item = i ->
     nth_error (cart (reduce clock state (UPDATE_CART_ITEM _ _ _ _ i q))) j
       = Some (with_quantity item q)) /\
  (forall j item, nth_error (cart state) j = Some item -> id item <> i ->
     nth_error (cart (reduce clock state (UPDATE_CART_ITEM _ _ _ _ i q))) j
       = Some item).
Proof.
  cbn. repeat split.
  - apply (requantified_ids (fun item => (id item =? i)%string) (fun _ => q)).
  - apply (requantified_products (fun item => (id item =? i)%string) (fun _ => q)).
  - intros j item Hj Heq. rewrite nth_error_map, Hj. cbn.
    rewrite (proj2 (String.eqb_eq _ _) Heq). reflexivity.
  - intros j item Hj Hneq. rewrite nth_error_map, Hj. cbn.
    rewrite (proj2 (String.eqb_neq _ _) Hneq). reflexivity.
Qed.

(** X3.  An [id] that no line of the cart has: REMOVE_FROM_CART and
    UPDATE_CART_ITEM return the state as it is. *)
Theorem unknown_id_changes_nothing
    (clock : Clock) (state : State) (i : string) (q : number) :
  ~ In i (map id (cart state)) ->
  reduce clock state (REMOVE_FROM_CART _ _ _ _ i) = state /\
  reduce clock state (UPDATE_CART_ITEM _ _ _ _ i q) = state.
Proof.
  intros Hnew.
  assert (Hother : forall item, In item (cart state) -> (id item =? i)%string = false).
  { intros item Hin. apply String.eqb_neq. intros Heq. apply Hnew.
    rewrite <- Heq. apply in_map. exact Hin. }
  cbn. split.
  - rewrite filter_all; [apply with_cart_same|].
    intros item Hin. rewrite (Hother item Hin). reflexivity.
  - rewrite map_none_changed; [apply with_cart_same|].
    intros item Hin. rewrite (Hother item Hin). reflexivity.
Qed.

(** X4.  Adding a product that the cart does not have, at a moment whose
    timestamp is not the [id] of a line, and then removing the line by
    that [id], gives back the state from before. *)
Theorem add_then_remove_restores
    (clock later : Clock) (state : State) (p : Product) (q : number) :
  (forall item, In item (cart state) -> productId item <> product_id p) ->
  ~ In (Date_now_toString clock) (map id (cart state)) ->
  reduce later (reduce clock state (ADD_TO_CART p q))
    (REMOVE_FROM_CART _ _ _ _ (Date_now_toString clock))
    = state.
Proof.
  intros Habsent Hfresh. destruct state as [u c a l e]. cbn in *.
  destruct (find (fun item : Item => (productId item =? product_id p)%string) c)
    as [existing|] eqn:Hfind.
  - destruct (find_some _ _ Hfind) as [Hin Hpid].
    apply String.eqb_eq in Hpid. elim (Habsent existing Hin Hpid).
  - unfold with_cart. cbn. f_equal.
    rewrite filter_app. cbn. rewrite String.eqb_refl. cbn.
    rewrite app_nil_r. apply filter_all.
    intros item Hin. apply negb_true_iff. apply String.eqb_neq.
    intros Heq. apply Hfresh. rewrite <- Heq. apply in_map. exact Hin.
Qed.

(** X5.  ADD_TO_CART leaves the cart with a line of the product; the cart grows
    by at most one line, and adding the same product again adds no
    line. *)
Theorem second_add_adds_no_line
    (clock later : Clock) (state : State) (p : Product) (q1 q2 : number) :
  (exists item,
      In item (cart (reduce clock state (ADD_TO_CART p q1))) /\
      productId item = product_id p) /\
  length (cart state) <= length (cart (reduce clock state (ADD_TO_CART p q1))) /\
  length (cart (reduce clock state (ADD_TO_CART p q1))) <= S (length (cart state)) /\
  length (cart (reduce later (reduce clock state (ADD_TO_CART p q1))
                  (ADD_TO_CART p q2)))
    = length (cart (reduce clock state (ADD_TO_CART p q1))).
Proof.
  assert (Hhas : exists item,
             In item (cart (reduce clock state (ADD_TO_CART p q1))) /\
             productId item = product_id p).
  { cbn.
    destruct (find (fun item : Item => (productId item =? product_id p)%string)
                (cart state)) as [existing|] eqn:Hfind; cbn.
    - destruct (find_some _ _ Hfind) as [Hin Hpid]. apply String.eqb_eq in Hpid.
      exists (if (id existing =? id existing)%string
              then with_quantity existing (plus (quantity existing) q1)
              else existing).
      split.
      + apply (in_map (fun item : Item =>
                         if (id item =? id existing)%string
                         then with_quantity item (plus (quantity item) q1)
                         else item)) in Hin.
        exact Hin.
      + rewrite String.eqb_refl. exact Hpid.
    - eexists. split; [apply in_or_app; right; left; reflexivity|reflexivity]. }
  split; [exact Hhas|]. repeat split.
  - cbn. destruct (find _ (cart state)); cbn;
      [rewrite length_map|rewrite length_app; cbn]; lia.
  - cbn. destruct (find _ (cart state)); cbn;
      [rewrite length_map|rewrite length_app; cbn]; lia.
  - destruct (CartSpec.find_finds
                (fun item : Item => (productId item =? product_id p)%string)
                (cart (reduce clock state (ADD_TO_CART p q1)))) as [found Hfound].
    { destruct Hhas as (item & Hin & Hpid). exists item. split; [exact Hin|].
      apply String.eqb_eq. exact Hpid. }
    cbn [reduce appReducer] in *. rewrite Hfound. cbn. apply length_map.
Qed.

(** One dispatch that cannot make two lines share an [id] keeps the ids
    of the cart pairwise distinct. *)
Lemma dispatch_keeps_ids_distinct
    (clock : Clock) (state : State) (action : Action) :
  keeps_ids_apart product_id clock state action ->
  NoDup (map id (cart state)) ->
  NoDup (map id (cart (reduce clock state action))).
Proof.
  intros Hstep Hnodup. destruct action; cbn in *; try assumption.
  - destruct (find (fun item : Item =>
                      (productId item =? product_id payload_product)%string)
                (cart state)) as [existing|] eqn:Hfind; cbn.
    + rewrite (requantified_ids
                 (fun item => (id item =? id existing)%string)
                 (fun item => plus (quantity item) payload_quantity)).
      exact Hnodup.
    + rewrite map_app. cbn. apply NoDup_snoc; [exact Hnodup|].
      apply Hstep. intros item Hin Hpid.
      pose proof (find_none _ _ Hfind item Hin) as Htest. cbn in Htest.
      apply String.eqb_neq in Htest. exact (Htest Hpid).
  - rewrite (requantified_ids
               (fun item => (id item =? payload_id)%string)
               (fun _ => payload_quantity)).
    exact Hnodup.
  - apply NoDup_map_filter. exact Hnodup.
  - constructor.
Qed.

(** X6.  From a cart whose lines have pairwise distinct ids, any sequence of
    dispatches in which a cart that is set has distinct ids and a line
    that is added gets a timestamp that no line has leads to a cart whose
    lines have pairwise distinct ids. *)
Theorem ids_stay_distinct (steps : list (Clock * Action)) :
  forall state : State,
    NoDup (map id (cart state)) ->
    all_keep_ids_apart product_id plus steps state ->
    NoDup (map id (cart (dispatch_all product_id plus steps state))).
Proof.
  induction steps as [|[clock action] rest IH]; intros state Hnodup Hsteps.
  - exact Hnodup.
  - destruct Hsteps as [Hstep Hrest]. cbn in *.
    apply IH; [|exact Hrest].
    apply dispatch_keeps_ids_distinct; assumption.
Qed.

(** X7.  [isAuthenticated] says whether there is a user: every dispatch keeps
    that, so it holds after any sequence of dispatches from a state where
    it holds (the initial state is one). *)
Theorem authenticated_iff_user (steps : list (Clock * Action)) :
  forall state : State,
    isAuthenticated state = truthy User (user state) ->
    isAuthenticated (dispatch_all product_id plus steps state)
      = truthy User (user (dispatch_all product_id plus steps state)).
Proof.
  induction steps as [|[clock action] rest IH]; intros state Hstate.
  - exact Hstate.
  - cbn. apply IH. unfold dispatch. cbn.
    destruct action; cbn; try exact Hstate; try reflexivity.
    destruct (find _ (cart state)); exact Hstate.
Qed.

(** X8.  What a dispatch never touches: the three session actions leave the
    cart alone, and the five cart actions leave the user, the
    authentication flag, the loading flag and the error alone. *)
Theorem dispatch_frames (clock : Clock) (state : State) (action : Action) :
  match action with
  | SET_USER _ _ _ _ _ =>
      cart (reduce clock state action) = cart state /\
      loading (reduce clock state action) = loading state /\
      error (reduce clock state action) = error state
  | SET_LOADING _ _ _ _ _ =>
      cart (reduce clock state action) = cart state /\
      user (reduce clock state action) = user state /\
      isAuthenticated (reduce clock state action) = isAuthenticated state /\
      error (reduce clock state action) = error state
  | SET_ERROR _ _ _ _ _ =>
      cart (reduce clock state action) = cart state /\
      user (reduce clock state action) = user state /\
      isAuthenticated (reduce clock state action) = isAuthenticated state /\
      loading (reduce clock state action) = loading state
  | _ =>
      user (reduce clock state action) = user state /\
      isAuthenticated (reduce clock state action) = isAuthenticated state /\
      loading (reduce clock state action) = loading state /\
      error (reduce clock state action) = error state
  end.
Proof.
  destruct action; cbn; try (repeat split; reflexivity).
  destruct (find _ (cart state)); repeat split.
Qed.

End ReducerLaws.

Section CartPageLaws.

Variables User Product ProductVariant number : Type.
Variable product_id : Product -> string.
Variable plus : number -> number -> number.
Variable minus : number -> number -> number.
Variable lt : number -> number -> bool.
Variable one : number.

Local Abbreviation State := (AppState User Product ProductVariant number).
Local Abbreviation Item := (CartItem Product ProductVariant number).

(** X9.  The cart page never brings a quantity below one: [updateQuantity] with
    any id and any quantity, and [removeItem], keep every quantity of the
    cart at one or more; and the minus button of a line whose quantity
    would fall below one changes nothing (the line stays). *)
Theorem cart_page_keeps_quantities_at_least_one
    (clock : Clock) (state : State) :
  quantities_at_least_one lt one state ->
  (forall i q,
      quantities_at_least_one lt one
        (updateQuantity product_id plus lt one clock state i q)) /\
  (forall i,
      quantities_at_least_one lt one (removeItem product_id plus clock state i)) /\
  (forall item,
      lt (minus (quantity item) one) one = true ->
      click_minus product_id plus minus lt one clock state item = state).
Proof.
  intros Hstate. repeat split.
  - intros i q item. unfold updateQuantity.
    destruct (lt q one) eqn:Hq; [apply Hstate|].
    cbn. intros Hin. apply in_map_iff in Hin.
    destruct Hin as (old & Hitem & Hold). subst item.
    destruct (id old =? i)%string; [exact Hq | exact (Hstate old Hold)].
  - intros i item. cbn. intros Hin. apply filter_In in Hin.
    apply Hstate. tauto.
  - intros item Hbelow. unfold click_minus, updateQuantity.
    rewrite Hbelow. reflexivity.
Qed.

End CartPageLaws.

Section BadgeLaws.

Variables User Product ProductVariant number : Type.
Variable product_id : Product -> string.
Variable plus : number -> number -> number.
Variable zero : number.

Local Abbreviation State := (AppState User Product ProductVariant number).
Local Abbreviation Item := (CartItem Product ProductVariant number).

(** X10.  The cart badge of the header follows an ADD_TO_CART that appends
    a line: when the cart has no line of the product, the badge after
    adding [q] is the badge before, [+] [q], with the [+] of the
    program's numbers (nothing is assumed of it). *)
Theorem badge_counts_appended_quantity
    (clock : Clock) (state : State) (p : Product) (q : number) :
  (forall item, In item (cart state) -> productId item <> product_id p) ->
  cartItemsCount plus zero
    (dispatch product_id plus clock state (actions_addToCart _ _ _ _ p q))
    = plus (cartItemsCount plus zero state) q.
Proof.
  intros Habsent. unfold cartItemsCount, dispatch. cbn.
  destruct (find (fun item : Item => (productId item =? product_id p)%string)
              (cart state)) as [existing|] eqn:Hfind; cbn.
  - destruct (find_some _ _ Hfind) as [Hin Hpid].
    apply String.eqb_eq in Hpid. elim (Habsent existing Hin Hpid).
  - rewrite fold_left_app. reflexivity.
Qed.

End BadgeLaws.

Section ProductCardLaws.

Variables User Product ProductVariant number : Type.
Variable product_id : Product -> string.
Variable plus : number -> number -> number.
Variable one : number.

Local Abbreviation State := (AppState User Product ProductVariant number).
Local Abbreviation Item := (CartItem Product ProductVariant number).

(** [find] reaches an element appended to a list in which nothing passes
    the test. *)
Lemma find_appended {A : Type} (test : A -> bool) (l : list A) (x : A) :
  (forall y, In y l -> test y = false) ->
  test x = true ->
  find test (l ++ [x]) = Some x.
Proof.
  intros Hnone Hx. induction l as [|a l IH]; cbn.
  - rewrite Hx. reflexivity.
  - rewrite (Hnone a (or_introl eq_refl)). apply IH.
    intros y Hy. apply Hnone. right. exact Hy.
Qed.

(** X11.  Two clicks on "add to cart" for a product that the cart does not have
    make one line, not two: the cart is one line longer, and that last
    line carries the product, the timestamp of the first click as its id,
    and the quantity 1 + 1. *)
Theorem two_clicks_make_one_line
    (clock later : Clock) (state : State) (p : Product) :
  (forall item, In item (cart state) -> productId item <> product_id p) ->
  length (cart (handleAddToCart product_id plus one later
                  (handleAddToCart product_id plus one clock state p) p))
    = S (length (cart state)) /\
  exists line,
    nth_error (cart (handleAddToCart product_id plus one later
                       (handleAddToCart product_id plus one clock state p) p))
      (length (cart state)) = Some line /\
    product line = p /\
    quantity line = plus one one /\
    id line = Date_now_toString clock.
Proof.
  intros Habsent.
  assert (Hnone : forall y : Item, In y (cart state) ->
                    (productId y =? product_id p)%string = false).
  { intros y Hy. apply String.eqb_neq. exact (Habsent y Hy). }
  unfold handleAddToCart, dispatch, actions_addToCart. cbn.
  destruct (find (fun item : Item => (productId item =? product_id p)%string)
              (cart state)) as [existing|] eqn:Hfind.
  { destruct (find_some _ _ Hfind) as [Hin Hpid].
    rewrite (Hnone existing Hin) in Hpid. discriminate. }
  cbn. rewrite (find_appended _ _ _ Hnone) by (cbn; apply String.eqb_refl).
  cbn. split.
  - rewrite length_map, length_app. cbn. lia.
  - rewrite nth_error_map, nth_error_app2, Nat.sub_diag by lia. cbn.
    rewrite String.eqb_refl. eexists. repeat split.
Qed.

End ProductCardLaws.

(** *** The demo store *)

(** Nothing in the demo cart has id 5. *)
Lemma unknown_id_on_demo_cart :
  appReducer (fun p : string => p) Z.add noon demo_cart
    (REMOVE_FROM_CART _ _ _ _ "5") = demo_cart /\
  appReducer (fun p : string => p) Z.add noon demo_cart
    (UPDATE_CART_ITEM _ _ _ _ "5" 4%Z) = demo_cart.
Proof.
  apply (unknown_id_changes_nothing unit string unit Z (fun p => p) Z.add
           noon demo_cart "5" 4%Z).
  cbn. intuition discriminate.
Defined.

(** Product 7 is added to the demo cart at noon and removed again. *)
Lemma add_then_remove_on_demo_cart :
  appReducer (fun p : string => p) Z.add one_pm
    (appReducer (fun p : string => p) Z.add noon demo_cart
       (ADD_TO_CART product_7 2%Z))
    (REMOVE_FROM_CART _ _ _ _ "1708000000000")
    = demo_cart.
Proof.
  apply (add_then_remove_restores unit string unit Z (fun p => p) Z.add
           noon one_pm demo_cart product_7 2%Z).
  - intros item [<-|[<-|[]]]; discriminate.
  - cbn. intuition discriminate.
Defined.

(** The ids of the demo cart stay distinct through the visit. *)
Lemma ids_distinct_after_visit :
  NoDup (map id (cart (dispatch_all (fun p : string => p) Z.add visit demo_cart))).
Proof.
  apply (ids_stay_distinct unit string unit Z (fun p => p) Z.add visit demo_cart).
  - repeat constructor; cbn; intuition discriminate.
  - cbn. repeat split; intros _; intuition discriminate.
Defined.

(** The demo state has a user and is authenticated; so it is after the
    visit. *)
Lemma authenticated_after_visit :
  isAuthenticated (dispatch_all (fun p : string => p) Z.add visit demo_cart)
    = truthy unit (user (dispatch_all (fun p : string => p) Z.add visit demo_cart)).
Proof.
  apply (authenticated_iff_user unit string unit Z (fun p => p) Z.add visit demo_cart).
  reflexivity.
Defined.

(** The minus button on the first line of the demo cart (quantity 1) does
    nothing. *)
Lemma minus_on_single_unit :
  click_minus (fun p : string => p) Z.add Z.sub Z.ltb 1%Z noon demo_cart
    (item_of "1" "1" 1) = demo_cart.
Proof.
  apply (cart_page_keeps_quantities_at_least_one unit string unit Z
           (fun p => p) Z.add Z.sub Z.ltb 1%Z noon demo_cart).
  - intros item [<-|[<-|[]]]; reflexivity.
  - reflexivity.
Defined.

(** Two clicks on product 7 in the demo store. *)
Lemma two_clicks_on_product_7 :
  length (cart (handleAddToCart (fun p : string => p) Z.add 1%Z one_pm
                  (handleAddToCart (fun p : string => p) Z.add 1%Z noon
                     demo_cart product_7) product_7)) = 3.
Proof.
  apply (two_clicks_make_one_line unit string unit Z (fun p => p) Z.add 1%Z
           noon one_pm demo_cart product_7).
  intros item [<-|[<-|[]]]; discriminate.
Defined.

(** The badge of the demo cart with two units of product 7, which the
    cart does not have. *)
Lemma badge_after_adding_product_7 :
  cartItemsCount Z.add 0%Z
    (dispatch (fun p : string => p) Z.add noon demo_cart
       (actions_addToCart unit string unit Z product_7 2%Z))
    = (cartItemsCount Z.add 0%Z demo_cart + 2)%Z.
Proof.
  apply (badge_counts_appended_quantity unit string unit Z (fun p => p) Z.add 0%Z
           noon demo_cart product_7 2%Z).
  intros item [<-|[<-|[]]]; discriminate.
Defined.

End StorefrontSpec.

(** ** Properties of the load-test script *)

Module LoadTestSpec.
Import LoadTest.

Section ScriptLaws.

Variable number : Type.
Variable lit : string -> number.
Variable le_int : number -> Z -> bool.
Variable toString : Z -> string.
Variable Payload : Type.
Variable JSON_stringify : Payload -> string.
Variable truthy : Payload -> bool.
Variable platform : Platform number.
Variable ENV_BASE_URL : option string.

Local Abbreviation request :=
  (makeAuthenticatedRequest number Payload JSON_stringify truthy platform).
Local Abbreviation products :=
  {| verb := GET;
     url := API_BASE ENV_BASE_URL ++ "/products";
     body := None;
     headers := [("Content-Type", "application/json")] |}.
Local Abbreviation health :=
  {| verb := GET;
     url := BASE_URL ENV_BASE_URL ++ "/health";
     body := None;
     headers := [] |}.

(** X12.  A method other than GET, POST, PUT and DELETE (the comparison is exact,
    so [get] is one): nothing is sent, yet the request counter goes up by
    one before the missing response makes the call throw; no response
    time and no error sample are recorded. *)
Theorem unknown_method_is_counted_but_not_sent
    (method url : string) (payload : option Payload) (token : option string)
    (st : K6 number) :
  ~ In method ["GET"; "POST"; "PUT"; "DELETE"] ->
  fst (request method url payload token st)
    = Throw (TypeError_undefined "timings") /\
  sent (snd (request method url payload token st)) = sent st /\
  requestCount (snd (request method url payload token st))
    = (requestCount st + 1)%Z /\
  responseTime (snd (request method url payload token st)) = responseTime st /\
  errorRate (snd (request method url payload token st)) = errorRate st.
Proof.
  intros Hother. unfold makeAuthenticatedRequest.
  assert (Hget : (method =? "GET")%string = false)
    by (apply String.eqb_neq; intros ->; apply Hother; cbn; auto).
  assert (Hpost : (method =? "POST")%string = false)
    by (apply String.eqb_neq; intros ->; apply Hother; cbn; auto).
  assert (Hput : (method =? "PUT")%string = false)
    by (apply String.eqb_neq; intros ->; apply Hother; cbn; auto).
  assert (Hdelete : (method =? "DELETE")%string = false)
    by (apply String.eqb_neq; intros ->; apply Hother; cbn; auto).
  rewrite Hget, Hpost, Hput, Hdelete. repeat split.
Qed.

(** X13.  With one of the four methods exactly one request is sent, with
    the verb of the method, to the given url, with the JSON content type;
    it carries an Authorization header exactly when a non-empty token is
    given, and a body only for POST and PUT with a truthy payload: GET and
    DELETE drop the payload, and a payload that is [null] or falsy is sent
    as a [null] body.  The response of the platform is returned, and each
    of the three metrics gets one sample: one request, its duration, and
    whether its status is 400 or more. *)
Theorem request_is_sent_once_and_measured
    (method url : string) (payload : option Payload) (token : option string)
    (st : K6 number) :
  In method ["GET"; "POST"; "PUT"; "DELETE"] ->
  exists r,
    sent (snd (request method url payload token st)) = sent st ++ [r] /\
    (method = "GET" -> verb r = GET) /\
    (method = "POST" -> verb r = POST) /\
    (method = "PUT" -> verb r = PUT) /\
    (method = "DELETE" -> verb r = DEL) /\
    LoadTest.url r = url /\
    headers r
      = [("Content-Type", "application/json")]
        ++ (if token_given token then [("Authorization", bearer token)] else []) /\
    body r
      = match payload with
        | Some p =>
            if ((method =? "POST")%string || (method =? "PUT")%string)
               && truthy p
            then Some (JSON_stringify p)
            else None
        | None => None
        end /\
    fst (request method url payload token st) = Normal (platform (sent st) r) /\
    requestCount (snd (request method url payload token st))
      = (requestCount st + 1)%Z /\
    responseTime (snd (request method url payload token st))
      = responseTime st ++ [timings_duration (platform (sent st) r)] /\
    errorRate (snd (request method url payload token st))
      = errorRate st ++ [(400 <=? status (platform (sent st) r))%Z].
Proof.
  intros Hmethod. cbn in Hmethod.
  destruct Hmethod as [<-|[<-|[<-|[<-|[]]]]];
    eexists; cbn;
    (split; [reflexivity|]);
    (split; [intros Heq; try discriminate Heq; reflexivity|]);
    (split; [intros Heq; try discriminate Heq; reflexivity|]);
    (split; [intros Heq; try discriminate Heq; reflexivity|]);
    (split; [intros Heq; try discriminate Heq; reflexivity|]);
    (split; [reflexivity|]);
    (split; [reflexivity|]);
    (split; [destruct payload as [p|]; try reflexivity; cbn;
             destruct (truthy p); reflexivity|]);
    repeat split.
Qed.

(** One iteration of [rateLimitTest] whose response is not a 429: the
    request is sent and measured, the script sleeps and goes on. *)
Lemma rateLimitTest_loop_goes_on (left : nat) (st : K6 number) :
  status (platform (sent st) products) <> 429%Z ->
  rateLimitTest_loop number lit Payload JSON_stringify truthy platform ENV_BASE_URL
    (S left) st
  = rateLimitTest_loop number lit Payload JSON_stringify truthy platform ENV_BASE_URL
      left
      {| sent := sent st ++ [products];
         requestCount := requestCount st + 1;
         responseTime :=
           responseTime st ++ [timings_duration (platform (sent st) products)];
         errorRate :=
           errorRate st ++ [(400 <=? status (platform (sent st) products))%Z];
         checks := checks st;
         slept := slept st ++ [lit "0.1"];
         console := console st |}.
Proof.
  intros Hstatus. apply Z.eqb_neq in Hstatus.
  cbn [rateLimitTest_loop]. unfold bind at 1. cbn. rewrite Hstatus.
  reflexivity.
Qed.

(** One iteration whose response is a 429: the check is recorded and the
    loop is left. *)
Lemma rateLimitTest_loop_breaks (left : nat) (st : K6 number) :
  status (platform (sent st) products) = 429%Z ->
  rateLimitTest_loop number lit Payload JSON_stringify truthy platform ENV_BASE_URL
    (S left) st
  = (Normal tt,
     {| sent := sent st ++ [products];
        requestCount := requestCount st + 1;
        responseTime :=
          responseTime st ++ [timings_duration (platform (sent st) products)];
        errorRate :=
          errorRate st ++ [(400 <=? status (platform (sent st) products))%Z];
        checks := checks st ++ [("rate limit triggered", true)];
        slept := slept st;
        console := console st |}).
Proof.
  intros Hstatus.
  cbn [rateLimitTest_loop]. unfold bind at 1. cbn. rewrite Hstatus.
  reflexivity.
Qed.

(** The requests of [rateLimitTest]: [left] iterations from [st] send [k]
    requests and stop either because all [left] are made without a 429, or
    right after the first response with status 429. *)
Lemma rateLimitTest_loop_stops (left : nat) :
  forall st : K6 number,
  exists k,
    k <= left /\
    fst (rateLimitTest_loop number lit Payload JSON_stringify truthy platform
           ENV_BASE_URL left st) = Normal tt /\
    sent (snd (rateLimitTest_loop number lit Payload JSON_stringify truthy platform
                 ENV_BASE_URL left st))
      = sent st ++ repeat products k /\
    requestCount (snd (rateLimitTest_loop number lit Payload JSON_stringify truthy
                         platform ENV_BASE_URL left st))
      = (requestCount st + Z.of_nat k)%Z /\
    (forall j, S j < k ->
       status (platform (sent st ++ repeat products j) products) <> 429%Z) /\
    ((k = left /\
      (forall j, j < k ->
         status (platform (sent st ++ repeat products j) products) <> 429%Z) /\
      checks (snd (rateLimitTest_loop number lit Payload JSON_stringify truthy platform
                     ENV_BASE_URL left st)) = checks st)
     \/
     (exists j, k = S j /\
        status (platform (sent st ++ repeat products j) products) = 429%Z /\
        checks (snd (rateLimitTest_loop number lit Payload JSON_stringify truthy
                       platform ENV_BASE_URL left st))
          = checks st ++ [("rate limit triggered", true)])).
Proof.
  induction left as [|left IH]; intros st.
  - exists 0. cbn. rewrite app_nil_r, Z.add_0_r.
    repeat split; try lia. left. repeat split. intros j Hj. lia.
  - destruct (Z.eq_dec (status (platform (sent st) products)) 429)
      as [Hstatus|Hstatus].
    + exists 1. rewrite (rateLimitTest_loop_breaks left st Hstatus).
      cbn [fst snd sent requestCount checks repeat Z.of_nat].
      repeat split; try lia.
      right. exists 0. cbn [repeat]. rewrite app_nil_r. auto.
    + rewrite (rateLimitTest_loop_goes_on left st Hstatus).
      match goal with
      | |- context [rateLimitTest_loop _ _ _ _ _ _ _ left ?s] =>
          destruct (IH s) as (k & Hk & Hout & Hsent & Hcount & Hbefore & Hend);
          remember s as st1 eqn:Hst1
      end.
      assert (Hsent1 : sent st1 = sent st ++ [products]) by (subst st1; reflexivity).
      assert (Hcount1 : requestCount st1 = (requestCount st + 1)%Z)
        by (subst st1; reflexivity).
      assert (Hchecks1 : checks st1 = checks st) by (subst st1; reflexivity).
      assert (Hshift : forall j,
                 sent st1 ++ repeat products j
                 = sent st ++ repeat products (S j)).
      { intros j. rewrite Hsent1, <- app_assoc. reflexivity. }
      assert (Hfirst : forall j, j < S k ->
                (j = 0 \/ exists i, j = S i /\ i < k)).
      { intros [|i] Hj; [left; reflexivity | right; exists i; split; [reflexivity|lia]]. }
      exists (S k). split; [lia|]. split; [exact Hout|].
      split; [rewrite Hsent; apply Hshift|].
      split; [rewrite Hcount, Hcount1; lia|].
      split.
      * intros [|j] Hj; [cbn [repeat]; rewrite app_nil_r; exact Hstatus|].
        rewrite <- Hshift. apply Hbefore. lia.
      * destruct Hend as [(Hall & Hnone & Hchecks)|(j & Hj & Hlast & Hchecks)].
        -- left. split; [lia|]. split; [|rewrite Hchecks; exact Hchecks1].
           intros [|j] Hj; [cbn [repeat]; rewrite app_nil_r; exact Hstatus|].
           rewrite <- Hshift. apply Hnone. lia.
        -- right. exists (S j). rewrite <- Hshift.
           split; [lia|]. split; [exact Hlast|].
           rewrite Hchecks, Hchecks1. reflexivity.
Qed.

(** X14.  [rateLimitTest] sends at most twenty requests, all of them the same
    GET of the product list without Authorization header, and counts each
    of them.  It stops right after the first response with status 429,
    which it records as one passed check; when none of twenty responses
    is a 429 it records no check. *)
Theorem rateLimitTest_stops_at_first_429 (st : K6 number) :
  exists k,
    k <= 20 /\
    fst (rateLimitTest number lit Payload JSON_stringify truthy platform ENV_BASE_URL st)
      = Normal tt /\
    sent (snd (rateLimitTest number lit Payload JSON_stringify truthy platform
                 ENV_BASE_URL st))
      = sent st ++ repeat products k /\
    requestCount (snd (rateLimitTest number lit Payload JSON_stringify truthy platform
                         ENV_BASE_URL st))
      = (requestCount st + Z.of_nat k)%Z /\
    (forall j, S j < k ->
       status (platform (sent st ++ repeat products j) products) <> 429%Z) /\
    ((k = 20 /\
      (forall j, j < k ->
         status (platform (sent st ++ repeat products j) products) <> 429%Z) /\
      checks (snd (rateLimitTest number lit Payload JSON_stringify truthy platform
                     ENV_BASE_URL st)) = checks st)
     \/
     (exists j, k = S j /\
        status (platform (sent st ++ repeat products j) products) = 429%Z /\
        checks (snd (rateLimitTest number lit Payload JSON_stringify truthy platform
                       ENV_BASE_URL st))
          = checks st ++ [("rate limit triggered", true)])).
Proof.
  exact (rateLimitTest_loop_stops 20 st).
Qed.

(** X15.  [setup] sends one GET of the health endpoint, without headers and
    without touching the metrics.  With status 200 it returns the base
    url; with any other status it throws the error that names the status
    and does not log that the check passed. *)
Theorem setup_checks_health (st : K6 number) :
  sent (snd (setup number toString platform ENV_BASE_URL st))
    = sent st ++ [health] /\
  requestCount (snd (setup number toString platform ENV_BASE_URL st))
    = requestCount st /\
  (status (platform (sent st) health) = 200%Z ->
   fst (setup number toString platform ENV_BASE_URL st)
     = Normal (BASE_URL ENV_BASE_URL) /\
   console (snd (setup number toString platform ENV_BASE_URL st))
     = console st
       ++ ["Starting load test...";
           ("Target URL: " ++ BASE_URL ENV_BASE_URL)%string;
           "API health check passed"]) /\
  (status (platform (sent st) health) <> 200%Z ->
   fst (setup number toString platform ENV_BASE_URL st)
     = Throw (Error ("API health check failed: "
                     ++ toString (status (platform (sent st) health)))) /\
   console (snd (setup number toString platform ENV_BASE_URL st))
     = console st
       ++ ["Starting load test...";
           ("Target URL: " ++ BASE_URL ENV_BASE_URL)%string]).
Proof.
  unfold setup, bind, console_log, http_request, modify, throw, ret. cbn.
  destruct (status (platform (sent st) health) =? 200)%Z eqn:Hstatus; cbn.
  - apply Z.eqb_eq in Hstatus.
    split; [reflexivity|]. split; [reflexivity|]. split.
    + intros _. split; [reflexivity|]. rewrite <- !app_assoc. reflexivity.
    + intros Hother. contradiction.
  - apply Z.eqb_neq in Hstatus.
    split; [reflexivity|]. split; [reflexivity|]. split.
    + intros Hok. contradiction.
    + intros _. split; [reflexivity|]. rewrite <- !app_assoc. reflexivity.
Qed.

Variables browseProducts userRegistrationFlow shoppingCartFlow
  completeOrderFlow userProfileFlow : Eff (K6 number) unit.

Local Abbreviation main :=
  (LoadTest.main number le_int browseProducts userRegistrationFlow
     shoppingCartFlow completeOrderFlow userProfileFlow).
Local Abbreviation then_sleep scenario think :=
  (bind scenario (fun _ => sleep number think)).

(** X16.  The main function runs at most one journey and then sleeps: the first
    one whose cumulative weight reaches the random value, with thresholds
    40, 45, 70, 85 and 100; a value above 100 runs none. *)
Theorem main_runs_scenario_of_band (random think : number) (st : K6 number) :
  (le_int random 40 = true ->
   main random think st = then_sleep browseProducts think st) /\
  (le_int random 40 = false -> le_int random 45 = true ->
   main random think st = then_sleep userRegistrationFlow think st) /\
  (le_int random 40 = false -> le_int random 45 = false ->
   le_int random 70 = true ->
   main random think st = then_sleep shoppingCartFlow think st) /\
  (le_int random 40 = false -> le_int random 45 = false ->
   le_int random 70 = false -> le_int random 85 = true ->
   main random think st = then_sleep completeOrderFlow think st) /\
  (le_int random 40 = false -> le_int random 45 = false ->
   le_int random 70 = false -> le_int random 85 = false ->
   le_int random 100 = true ->
   main random think st = then_sleep userProfileFlow think st) /\
  (le_int random 40 = false -> le_int random 45 = false ->
   le_int random 70 = false -> le_int random 85 = false ->
   le_int random 100 = false ->
   main random think st = sleep number think st).
Proof.
  unfold LoadTest.main, scenarios, weights. cbn.
  repeat split; intros;
    repeat match goal with
      | H : le_int random _ = _ |- _ => rewrite H; clear H
      end;
    reflexivity.
Qed.

End ScriptLaws.

(** *** Runs of the script *)

(** The method written in lower case is not one of the four. *)
Lemma lower_case_get_is_not_sent :
  fst (makeAuthenticatedRequest Z SamplePayload sample_stringify sample_truthy unavailable
         "get" "http://localhost:8080/api/v1/products" None None fresh_run)
    = Throw (TypeError_undefined "timings") /\
  sent (snd (makeAuthenticatedRequest Z SamplePayload sample_stringify sample_truthy unavailable
               "get" "http://localhost:8080/api/v1/products" None None fresh_run))
    = [] /\
  requestCount (snd (makeAuthenticatedRequest Z SamplePayload sample_stringify sample_truthy unavailable
                       "get" "http://localhost:8080/api/v1/products" None None
                       fresh_run))
    = 1%Z.
Proof.
  destruct (unknown_method_is_counted_but_not_sent Z SamplePayload sample_stringify sample_truthy
              unavailable "get" "http://localhost:8080/api/v1/products"
              None None fresh_run) as (Hthrow & Hsent & Hcount & _).
  - cbn. intuition discriminate.
  - exact (conj Hthrow (conj Hsent Hcount)).
Defined.

(** A PUT with the payload 0 and a token, against the platform that is
    down: one PUT is sent, with the token and with a [null] body, and it
    is sampled as an error. *)
Lemma put_of_zero_has_no_body :
  exists r,
    sent (snd (makeAuthenticatedRequest Z SamplePayload sample_stringify
                 sample_truthy unavailable
                 "PUT" "http://localhost:8080/api/v1/cart/items/1"
                 (Some Zero) (Some "t0k3n") fresh_run)) = [r] /\
    verb r = PUT /\
    headers r = [("Content-Type", "application/json");
                 ("Authorization", "Bearer t0k3n")] /\
    body r = None /\
    errorRate (snd (makeAuthenticatedRequest Z SamplePayload sample_stringify
                      sample_truthy unavailable
                      "PUT" "http://localhost:8080/api/v1/cart/items/1"
                      (Some Zero) (Some "t0k3n") fresh_run)) = [true].
Proof.
  destruct (request_is_sent_once_and_measured Z SamplePayload sample_stringify
              sample_truthy unavailable
              "PUT" "http://localhost:8080/api/v1/cart/items/1"
              (Some Zero) (Some "t0k3n") fresh_run)
    as (r & Hsent & _ & _ & Hverb & _ & _ & Hheaders & Hbody & _ & _ & _ & Herrors).
  - cbn. auto.
  - exists r. repeat split; try assumption. apply Hverb. reflexivity.
Defined.

(** Against the throttling platform the third response is the first 429:
    three requests are sent and the check is recorded. *)
Lemma throttled_after_three_requests :
  length (sent (snd (rateLimitTest Z (fun _ => 0%Z) SamplePayload sample_stringify sample_truthy
                       throttling None fresh_run))) = 3 /\
  checks (snd (rateLimitTest Z (fun _ => 0%Z) SamplePayload sample_stringify sample_truthy
                 throttling None fresh_run))
    = [("rate limit triggered", true)].
Proof.
  destruct (rateLimitTest_stops_at_first_429 Z (fun _ => 0%Z) SamplePayload sample_stringify sample_truthy
              throttling None fresh_run)
    as (k & Hk & _ & Hsent & _ & Hbefore & Hend).
  destruct Hend as [(Hall & Hnone & _)|(j & Hj & Hlast & Hchecks)].
  - subst k. elim (Hnone 2); [lia | reflexivity].
  - split; [|exact Hchecks].
    rewrite Hsent. cbn [sent fresh_run app]. rewrite repeat_length. subst k.
    destruct j as [|[|[|j]]]; try discriminate Hlast; try reflexivity.
    elim (Hbefore 2); [lia | reflexivity].
Defined.

(** With the platform down, [setup] fails and names the status. *)
Lemma setup_against_unavailable_platform :
  fst (setup Z decimal unavailable None fresh_run)
    = Throw (Error "API health check failed: 503").
Proof.
  destruct (setup_checks_health Z decimal unavailable None fresh_run)
    as (_ & _ & _ & Hfails).
  destruct Hfails as [Hthrow _]; [discriminate|].
  exact Hthrow.
Defined.

(** A random value of 42 falls in the band of the registration journey. *)
Lemma registration_journey_at_42 :
  main Z Z.leb (journey "browseProducts") (journey "userRegistrationFlow")
    (journey "shoppingCartFlow") (journey "completeOrderFlow")
    (journey "userProfileFlow") 42%Z 3%Z fresh_run
  = bind (journey "userRegistrationFlow") (fun _ => sleep Z 3%Z) fresh_run.
Proof.
  destruct (main_runs_scenario_of_band Z Z.leb
              (journey "browseProducts") (journey "userRegistrationFlow")
              (journey "shoppingCartFlow") (journey "completeOrderFlow")
              (journey "userProfileFlow") 42%Z 3%Z fresh_run)
    as (_ & Hregistration & _).
  apply Hregistration; reflexivity.
Defined.

End LoadTestSpec.

(** ** Properties of the payment service and of the traced order service *)

Module ServicesSpec.
Import Services.

(** Lookup after insertion, for the [Map] of the payment service. *)
Lemma Map_get_set_same {V} (key : string) (value : V) (m : list (string * V)) :
  Map_get key (Map_set key value m) = Some value.
Proof.
  induction m as [|[k v] m IH]; cbn.
  - rewrite String.eqb_refl. reflexivity.
  - destruct (k =? key)%string eqn:Hk; cbn; rewrite Hk; [reflexivity|exact IH].
Qed.

Lemma Map_get_set_other {V} (key other : string) (value : V)
    (m : list (string * V)) :
  other <> key ->
  Map_get other (Map_set key value m) = Map_get other m.
Proof.
  intros Hother. induction m as [|[k v] m IH]; cbn.
  - apply String.eqb_neq in Hother. rewrite String.eqb_sym, Hother. reflexivity.
  - destruct (k =? key)%string eqn:Hk; cbn.
    + apply String.eqb_eq in Hk. subst k.
      apply String.eqb_neq in Hother. rewrite String.eqb_sym, Hother. reflexivity.
    + destruct (k =? other)%string; [reflexivity|exact IH].
Qed.

Section PaymentServiceLaws.

Variables Store number PaymentResult : Type.
Variables StripeGateway PayPalGateway RazorPayGateway
  : PaymentGateway Store number PaymentResult.

Local Abbreviation processPayment :=
  (PaymentService_processPayment Store number PaymentResult
     StripeGateway PayPalGateway RazorPayGateway).

(** X17.  The payment service hands the request to the gateway registered under
    exactly the name in [request.gateway] and returns what that gateway
    returns; under any other name (the match is case sensitive) it throws
    the error that names the gateway without running a gateway. *)
Theorem payment_service_dispatches_by_name
    (request : PaymentRequest number) (st : Store) :
  (gateway request = "stripe" ->
   processPayment request st = gateway_processPayment StripeGateway request st) /\
  (gateway request = "paypal" ->
   processPayment request st = gateway_processPayment PayPalGateway request st) /\
  (gateway request = "razorpay" ->
   processPayment request st = gateway_processPayment RazorPayGateway request st) /\
  (~ In (gateway request) ["stripe"; "paypal"; "razorpay"] ->
   processPayment request st
     = (Throw (Error ("Unsupported payment gateway: " ++ gateway request)), st)).
Proof.
  unfold PaymentService_processPayment, gateways.
  repeat split.
  - intros ->. reflexivity.
  - intros ->. reflexivity.
  - intros ->. reflexivity.
  - intros Hother.
    rewrite !Map_get_set_other; [reflexivity|..];
      intros Heq; apply Hother; rewrite Heq; cbn; auto.
Qed.

End PaymentServiceLaws.

Section OrderServiceLaws.

Variable number : Type.
Variable backend : Backend number.
Variable orderData : OrderData number.

Local Abbreviation run := (processOrder backend orderData []).
Local Abbreviation root := "process-order".

Ltac traced_unfold :=
  unfold processOrder, try_finally, try_catch, bind, trace, call, ret, throw,
    times in *;
  cbn in *.

Ltac backend_cases :=
  match goal with
  | |- context [backend ?h ?c] =>
      let E := fresh "Answer" in destruct (backend h c) eqn:E; cbn
  end.

(** X18.  The root span is started first and ended last, once each, whether the
    order is processed or an error is thrown. *)
Theorem root_span_always_ended :
  exists middle,
    snd run
      = Traced (StartSpan root None) :: middle ++ [Traced (EndSpan root)] /\
    times (started root) (snd run) = 1 /\
    times (ended root) (snd run) = 1.
Proof.
  traced_unfold. repeat backend_cases;
    match goal with
    | |- exists middle, _ :: ?rest = _ /\ _ => exists (removelast rest)
    end;
    repeat split.
Qed.

(** Positions of a log of at most thirteen events. *)
Ltac log_position n :=
  destruct n as [|[|[|[|[|[|[|[|[|[|[|[|[|n]]]]]]]]]]]]]; cbn in *;
  try (destruct n; cbn in *).

Ltac answered :=
  repeat match goal with
    | H : Some _ = Some _ |- _ => inversion H; clear H; subst
    | H : Normal _ = Normal _ |- _ => inversion H; clear H; subst
    | H : Throw _ = Throw _ |- _ => inversion H; clear H; subst
    | H1 : backend ?h ?c = Normal _, H2 : backend ?h ?c = Throw _ |- _ =>
        rewrite H1 in H2; discriminate H2
    | H1 : backend ?h ?c = Throw ?e, H2 : backend ?h ?c = Throw ?d |- _ =>
        rewrite H1 in H2; inversion H2; clear H2; subst
    end.

(** X19.  [processOrder] returns the order that [createOrder] returned, after
    the three service calls, with the root span marked OK; or it throws
    the very error of the first service call that failed, with the root
    span marked ERROR with that error and never OK, and without making a
    later service call. *)
Theorem processOrder_returns_or_rethrows :
  (forall order, fst run = Normal order ->
     times is_call (snd run) = 3 /\
     In (Traced (SetStatus root OK)) (snd run) /\
     exists paid n,
       nth_error (snd run) n = Some (Called (CreateOrder orderData paid)) /\
       backend (firstn n (snd run)) (CreateOrder orderData paid) = Normal order) /\
  (forall e, fst run = Throw e ->
     In (Traced (SetStatus root (ERROR e))) (snd run) /\
     ~ In (Traced (SetStatus root OK)) (snd run) /\
     exists n c,
       nth_error (snd run) n = Some (Called c) /\
       backend (firstn n (snd run)) c = Throw e /\
       forall m c', n < m -> nth_error (snd run) m <> Some (Called c')).
Proof.
  traced_unfold. repeat backend_cases; split; intros result Hout;
    try discriminate Hout; inversion Hout; subst.
  - split; [reflexivity|]. split; [auto 20|].
    match goal with
    | A : backend ?h (CreateOrder _ ?paid) = Normal _ |- _ =>
        exists paid, (length h); split; [reflexivity | exact A]
    end.
  - split; [auto 20|]. split; [cbn; intuition discriminate|].
    match goal with
    | A : backend ?h ?c = Throw result |- _ =>
        exists (length h), c; split; [reflexivity|]; split; [exact A|]
    end.
    intros m c' Hm Hnth. log_position m; try lia; discriminate Hnth.
  - split; [auto 20|]. split; [cbn; intuition discriminate|].
    match goal with
    | A : backend ?h ?c = Throw result |- _ =>
        exists (length h), c; split; [reflexivity|]; split; [exact A|]
    end.
    intros m c' Hm Hnth. log_position m; try lia; discriminate Hnth.
  - split; [auto 20|]. split; [cbn; intuition discriminate|].
    match goal with
    | A : backend ?h ?c = Throw result |- _ =>
        exists (length h), c; split; [reflexivity|]; split; [exact A|]
    end.
    intros m c' Hm Hnth. log_position m; try lia; discriminate Hnth.
Qed.

(** X20.  The child spans: a child span is ended only when its step succeeds.
    When validation throws, the validate-order span stays open and the
    payment span is never started; when the payment throws, the
    process-payment span stays open.  When the order is processed both
    child spans are started and ended once. *)
Theorem child_span_left_open_on_failure :
  times (started "validate-order") (snd run) = 1 /\
  (forall order, fst run = Normal order ->
     times (ended "validate-order") (snd run) = 1 /\
     times (started "process-payment") (snd run) = 1 /\
     times (ended "process-payment") (snd run) = 1) /\
  (forall n e,
     nth_error (snd run) n = Some (Called (ValidateOrder orderData)) ->
     backend (firstn n (snd run)) (ValidateOrder orderData) = Throw e ->
     times (ended "validate-order") (snd run) = 0 /\
     times (started "process-payment") (snd run) = 0 /\
     times is_call (snd run) = 1) /\
  (forall n e,
     nth_error (snd run) n
       = Some (Called (ProcessPayment (payment orderData))) ->
     backend (firstn n (snd run)) (ProcessPayment (payment orderData)) = Throw e ->
     times (ended "validate-order") (snd run) = 1 /\
     times (started "process-payment") (snd run) = 1 /\
     times (ended "process-payment") (snd run) = 0 /\
     times is_call (snd run) = 2).
Proof.
  traced_unfold. repeat backend_cases;
    (split; [reflexivity|]);
    (split; [intros order Hout; try discriminate Hout; repeat split|]);
    split; intros n e Hnth Hthrow; log_position n;
    try discriminate Hnth; answered; repeat split.
Qed.

End OrderServiceLaws.

(** *** Runs of the services *)

(** The name with a capital letter is not a registered gateway. *)
Lemma capitalised_gateway_is_unsupported :
  PaymentService_processPayment (list string) Z string
    (named_gateway "stripe") (named_gateway "paypal") (named_gateway "razorpay")
    {| gateway := "Stripe"; amount := 2000%Z; currency := "USD";
       paymentMethodId := "pm-card-1"; orderId := "ord-9";
       customerId := "user-1" |} []
  = (Throw (Error "Unsupported payment gateway: Stripe"), []).
Proof.
  destruct (payment_service_dispatches_by_name (list string) Z string
              (named_gateway "stripe") (named_gateway "paypal")
              (named_gateway "razorpay")
              {| gateway := "Stripe"; amount := 2000%Z; currency := "USD";
                 paymentMethodId := "pm-card-1"; orderId := "ord-9";
                 customerId := "user-1" |} [])
    as (_ & _ & _ & Hunsupported).
  apply Hunsupported. cbn. intuition discriminate.
Defined.

(** A declined payment: the error is rethrown and recorded on the root
    span. *)
Lemma declined_payment_is_rethrown :
  In (Traced (SetStatus "process-order" (ERROR (Error "card declined"))))
     (snd (processOrder declining order_9 [])).
Proof.
  destruct (processOrder_returns_or_rethrows Z declining order_9)
    as [_ Hthrown].
  destruct (Hthrown (Error "card declined") eq_refl) as [Hstatus _].
  exact Hstatus.
Defined.

(** A declined payment: the payment span stays open. *)
Lemma declined_payment_leaves_span_open :
  times (ended "process-payment") (snd (processOrder declining order_9 [])) = 0.
Proof.
  destruct (child_span_left_open_on_failure Z declining order_9)
    as (_ & _ & _ & Hpayment).
  destruct (Hpayment 6 (Error "card declined") eq_refl eq_refl)
    as (_ & _ & Hopen & _).
  exact Hopen.
Defined.

End ServicesSpec.

(** ** The shape of the runs of the order saga *)

Module SagaRunsSpec.
Import Saga SagaRuns.

Section Shapes.

Variable w : World.
Variable req : CreateOrderRequest.

Local Abbreviation run := (processOrder w req).

(** X21.  [processOrder] returns [{ success: true, order }] exactly when the
    four steps are answered normally, and the order is then the one that
    step 3 created. *)
Theorem success_iff_all_steps_answered (o : Order.t) :
  outcome run = Normal (succeeded o) <-> all_steps_answered w req o.
Proof.
  unfold all_steps_answered. split.
  - saga_unfold. repeat (answer_cases w); intros Hout;
      try discriminate Hout; inversion Hout; subst.
    match goal with u : unit |- _ => destruct u end. eauto 8.
  - intros (r & p & H1 & H2 & H3 & H4).
    saga_unfold. repeat answer_known. reflexivity.
Qed.

(** X22.  Every run starts with the reservation; its calls are forward calls
    (at most four) followed by compensating calls, never a forward call
    after a compensating one; a run that returns success has made no
    compensating call, and a result never has both an order and an
    error. *)
Theorem forward_calls_then_compensations :
  nth_error (calls run) 0 = Some (InventoryReserve (items req)) /\
  (exists forward undo,
      calls run = forward ++ undo /\
      forallb is_forward forward = true /\
      forallb is_compensation undo = true /\
      length forward <= 4 /\
      length undo <= 3) /\
  (forall result, outcome run = Normal result ->
     (success result = true ->
      count is_compensation (calls run) = 0 /\ error result = None) /\
     (success result = false -> order result = None)).
Proof.
  saga_unfold. repeat (answer_cases w); (split; [reflexivity|]); split;
    try (intros result Hout; try discriminate Hout; inversion Hout; subst;
         split; intros Hflag; try discriminate Hflag; repeat split).
  all: match goal with
       | |- exists forward undo, ?l = _ /\ _ =>
           exists (filter is_forward l), (filter is_compensation l);
           cbn; repeat split; lia
       end.
Qed.

End Shapes.

End SagaRunsSpec.
